(** * Azure Data Studio: character pairs, workspace tree, long text viewer

    A shallow embedding of three independent pieces of the repository:

    - the auto-closing / surrounding pair support exercised by
      [vs/editor/test/common/modes/supports/characterPair.test.ts];
    - [WorkspaceTreeDataProvider] of the data-workspace extension
      ([extensions/data-workspace/src/common/workspaceTreeDataProvider.ts]);
    - the [LongTextViewer] slick-grid cell viewer.

    Definitions come first, theorems afterwards. *)

From stdpp Require Import base gmap strings list pretty.
From Stdlib Require Import ZArith Lia.

Local Open Scope string_scope.
Local Open Scope Z_scope.
Local Open Scope list_scope.

(* ===================================================================== *)
(** * Part I. Character pair support                                      *)
(* ===================================================================== *)

(** The classes under test ([StandardAutoClosingPairConditional],
    [CharacterPairSupport], [ScopedLineTokens]) and the helper
    [createFakeScopedLineTokens] are imported by the test file; their own
    sources are not at hand.  They are modelled from the specification, and
    every assertion of the test file is replayed against the model in
    [characterPair_test_suite] and [characterPair_configuration_tests]. *)

Module StandardTokenType.

(** Modelled from the spec: the enum [StandardTokenType] of
    [vs/editor/common/languages] is missing; the spec lists the scope types
    as string / comment / other, and the tests use [Other], [String] and
    [Comment]. *)
Inductive t : Type := Other | Comment | String.

(** Modelled from the spec: the name under which a scope type is listed in a
    pair's [notIn] set (the tests write ['string'] and ['comment']). *)
Definition scopeName (ty : t) : string :=
  match ty with
  | Other => "other"
  | Comment => "comment"
  | String => "string"
  end.

End StandardTokenType.

Module IAutoClosingPair.

(** Modelled from the spec: an (open, close) character pair, as written in a
    language configuration's [surroundingPairs]. *)
Record t : Type := { open : string; close : string }.

End IAutoClosingPair.

Module IAutoClosingPairConditional.

(** Modelled from the spec: an (open, close) pair plus an optional [notIn]
    set of lexical scopes, as written in [autoClosingPairs]. *)
Record t : Type :=
  { open : string; close : string; notIn : option (list string) }.

End IAutoClosingPairConditional.

(** [TokenText] of [vs/editor/test/common/modesTestUtils]: one token of a
    test line, its text and its standard token type. *)
Record TokenText : Type :=
  { text : string; type : StandardTokenType.t }.

Module ScopedLineTokens.

(** Modelled from the spec: the "short ordered token list".  Each token is
    kept with the offset just past its last character. *)
Record token : Type :=
  { endOffset : Z; standardTokenType : StandardTokenType.t }.

Definition t : Type := list token.

Definition getTokenCount (context : t) : nat := length context.

(** Modelled from the spec: the "linear scan".  The index of the first token
    that ends after [offset]; the last token when there is none. *)
Fixpoint findTokenIndexAtOffset (context : t) (offset : Z) : nat :=
  match context with
  | [] => O
  | tok :: rest =>
      match rest with
      | [] => O
      | _ :: _ =>
          if offset <? endOffset tok then O
          else S (findTokenIndexAtOffset rest offset)
      end
  end.

(** Modelled from the spec: the "scope lookup". *)
Definition getStandardTokenType (context : t) (tokenIndex : nat)
  : StandardTokenType.t :=
  match context !! tokenIndex with
  | Some tok => standardTokenType tok
  | None => StandardTokenType.Other
  end.

End ScopedLineTokens.

(** Modelled from the spec: [createFakeScopedLineTokens] of
    [modesTestUtils] lays the token texts out one after the other, starting
    at offset 0. *)
Fixpoint fakeTokensFrom (startOffset : Z) (rawTokens : list TokenText)
  : ScopedLineTokens.t :=
  match rawTokens with
  | [] => []
  | rawToken :: rest =>
      let stop := startOffset + Z.of_nat (String.length (text rawToken)) in
      {| ScopedLineTokens.endOffset := stop;
         ScopedLineTokens.standardTokenType := type rawToken |}
        :: fakeTokensFrom stop rest
  end.

Definition createFakeScopedLineTokens (rawTokens : list TokenText)
  : ScopedLineTokens.t :=
  fakeTokensFrom 0 rawTokens.

Module StandardAutoClosingPairConditional.

(** Modelled from the spec: the auto-closing pair built once from a
    configuration entry, "immutable thereafter". *)
Record t : Type :=
  { open : string; close : string; notIn : option (list string) }.

Definition new (source : IAutoClosingPairConditional.t) : t :=
  {| open := IAutoClosingPairConditional.open source;
     close := IAutoClosingPairConditional.close source;
     notIn := IAutoClosingPairConditional.notIn source |}.

(** Is [scope] listed in a [notIn] set? *)
Definition listed (scope : string) (scopes : list string) : bool :=
  existsb (String.eqb scope) scopes.

(** Modelled from the spec: "permitted unless the token's scope type
    (string/comment/other) appears in the pair's notIn set". *)
Definition isOK (pair : t) (standardToken : StandardTokenType.t) : bool :=
  match notIn pair with
  | None => true
  | Some scopes => negb (listed (StandardTokenType.scopeName standardToken) scopes)
  end.

(** Modelled from the spec: [shouldAutoClose], missing from the sources.
    An empty line always permits; otherwise the decision is the one of the
    token holding the character in front of [column] (columns are 1-based:
    that character sits at offset [column - 2], which is what the test
    assertions on "interesting line 2" and "interesting line 3" require).
    No default is built in for columns between two tokens: the test
    "interesting line 2" expects false at column 6, between the string and
    the semicolon. *)
Definition shouldAutoClose (pair : t) (context : ScopedLineTokens.t)
  (column : Z) : bool :=
  if Nat.eqb (ScopedLineTokens.getTokenCount context) 0 then true
  else
    let tokenIndex :=
      ScopedLineTokens.findTokenIndexAtOffset context (column - 2) in
    let standardTokenType :=
      ScopedLineTokens.getStandardTokenType context tokenIndex in
    isOK pair standardTokenType.

End StandardAutoClosingPairConditional.

Module CharacterPairSupport.

(** Modelled from the spec: the "language-configuration JSON-like shape
    (autoClosingPairs, brackets, surroundingPairs)"; each key may be
    absent. *)
Record LanguageConfiguration : Type :=
  { autoClosingPairs : option (list IAutoClosingPairConditional.t);
    brackets : option (list (string * string));
    surroundingPairs : option (list IAutoClosingPair.t) }.

(** A surrounding pair is either an entry of the configuration's
    [surroundingPairs], returned as given, or one of the auto-closing pairs
    (the tests tell the two apart with [deepStrictEqual]). *)
Inductive SurroundingPair : Type :=
  | Configured (pair : IAutoClosingPair.t)
  | AutoClosing (pair : StandardAutoClosingPairConditional.t).

Record t : Type :=
  { _autoClosingPairs : list StandardAutoClosingPairConditional.t;
    _surroundingPairs : list SurroundingPair }.

Definition ofBracket (b : string * string)
  : StandardAutoClosingPairConditional.t :=
  StandardAutoClosingPairConditional.new
    {| IAutoClosingPairConditional.open := fst b;
       IAutoClosingPairConditional.close := snd b;
       IAutoClosingPairConditional.notIn := None |}.

(** Modelled from the spec: the constructor, missing from the sources; the
    precedence is the one the seven configuration tests pin down. *)
Definition new (config : LanguageConfiguration) : t :=
  let auto :=
    match autoClosingPairs config with
    | Some pairs => map StandardAutoClosingPairConditional.new pairs
    | None =>
        match brackets config with
        | Some bs => map ofBracket bs
        | None => []
        end
    end in
  {| _autoClosingPairs := auto;
     _surroundingPairs :=
       match surroundingPairs config with
       | Some pairs => map Configured pairs
       | None => map AutoClosing auto
       end |}.

Definition getAutoClosingPairs (this : t)
  : list StandardAutoClosingPairConditional.t :=
  _autoClosingPairs this.

Definition getSurroundingPairs (this : t) : list SurroundingPair :=
  _surroundingPairs this.

End CharacterPairSupport.

(** The helper of the test file itself: the first auto-closing pair of the
    support decides for a fake line.  [None] stands for the [TypeError] of
    calling a method on [undefined] when the support has no pair. *)
Definition testShouldAutoClose (characterPairSupport : CharacterPairSupport.t)
  (line : list TokenText) (column : Z) : option bool :=
  match CharacterPairSupport.getAutoClosingPairs characterPairSupport !! O with
  | Some autoClosingPair =>
      Some (StandardAutoClosingPairConditional.shouldAutoClose
              autoClosingPair (createFakeScopedLineTokens line) column)
  | None => None
  end.

(* ===================================================================== *)
(** * Part II. The workspace tree data provider                           *)
(* ===================================================================== *)

(** [vscode.Uri], reduced to the two properties the provider reads. *)
Record Uri : Type := { fsPath : string; path : string }.

(** The value a [catch] clause receives.  JavaScript lets any value be
    thrown: [Thrown message] is a value other than [undefined] and [null],
    with what reading its [message] property gives ([console.error] prints
    it); reading a property of the other two throws a [TypeError]. *)
Inductive JsError : Type :=
  | Thrown (message : string)
  | ThrownUndefined
  | ThrownNull.

(** How a call into extension-contributed code (the workspace service, a
    project provider, a project's tree data provider) ends: the awaited
    promise is fulfilled with a value, or it is rejected. *)
Inductive Outcome (A : Type) : Type :=
  | Returns (value : A)
  | Throws (reason : JsError).

Arguments Returns {A} value.
Arguments Throws {A} reason.

Module TreeDataProvider.

(** [vscode.TreeDataProvider<T>]: [getChildren] may answer [undefined]
    ([None]); the [onDidChangeTreeData] event is optional. *)
Record t (Element : Type) : Type :=
  { getChildren : option Element -> Outcome (option (list Element));
    onDidChangeTreeData : bool }.

Arguments getChildren {Element} _ _.
Arguments onDidChangeTreeData {Element} _.

End TreeDataProvider.

(** [WorkspaceTreeItem] of the [dataworkspace] typings: a node together with
    the provider that contributed it. *)
Record WorkspaceTreeItem (Element : Type) : Type :=
  { treeDataProvider : TreeDataProvider.t Element;
    element : Element }.

Arguments treeDataProvider {Element} _.
Arguments element {Element} _.

Module IProjectProvider.

(** The members of [dataworkspace.IProjectProvider] the tree provider uses;
    [supportsDragAndDrop] and [moveFile] are optional members. *)
Record t (Element : Type) : Type :=
  { getProjectTreeDataProvider : Uri -> Outcome (TreeDataProvider.t Element);
    supportsDragAndDrop : option bool;
    moveFile :
      option (Uri -> option Element -> WorkspaceTreeItem Element -> Outcome unit) }.

Arguments getProjectTreeDataProvider {Element} _ _.
Arguments supportsDragAndDrop {Element} _.
Arguments moveFile {Element} _.

End IProjectProvider.

Module IWorkspaceService.

(** The members of [IWorkspaceService] (./interfaces) the tree provider
    calls.  [getProjectsInWorkspace(ext, refreshFromDisk)]. *)
Record t (Element : Type) : Type :=
  { getProjectsInWorkspace : option string -> bool -> Outcome (list Uri);
    getProjectProvider : Uri -> Outcome (option (IProjectProvider.t Element)) }.

Arguments getProjectsInWorkspace {Element} _ _ _.
Arguments getProjectProvider {Element} _ _.

End IWorkspaceService.

(** The strings of ./constants, taken as parameters. *)
Record Constants : Type :=
  { dragAndDropNotSupported : string;
    onlyMovingOneFileIsSupported : string;
    ProjectsFailedToLoad : string;
    UnknownProjectsError : list string -> string }.

(** Everything the provider does to the outside world, in the order it does
    it: one constructor per call it makes.  [OnDidChangeTreeData p] is the
    registration of a listener on [p]'s event, [Fire] is
    [_onDidChangeTreeData.fire()]. *)
Inductive Event (Element : Type) : Type :=
  | LoggerLog (msg : string)
  | GetProjectsInWorkspace (ext : option string) (refreshFromDisk : bool)
  | GetProjectProvider (projectFile : Uri)
  | GetProjectTreeDataProvider (provider : IProjectProvider.t Element)
      (projectFile : Uri)
  | OnDidChangeTreeData (provider : TreeDataProvider.t Element)
  | GetChildren (provider : TreeDataProvider.t Element) (parent : option Element)
  | ExecuteCommand (command key : string) (value : bool)
  | ShowErrorMessage (msg : string)
  | ConsoleError (msg : string)
  | SendMetricsEvent (metrics : gmap string Z) (groupName : string)
  | MoveFile (provider : IProjectProvider.t Element) (projectUri : Uri)
      (source : option Element) (target : WorkspaceTreeItem Element)
  | Fire.

Arguments LoggerLog {Element} msg.
Arguments GetProjectsInWorkspace {Element} ext refreshFromDisk.
Arguments GetProjectProvider {Element} projectFile.
Arguments GetProjectTreeDataProvider {Element} provider projectFile.
Arguments OnDidChangeTreeData {Element} provider.
Arguments GetChildren {Element} provider parent.
Arguments ExecuteCommand {Element} command key value.
Arguments ShowErrorMessage {Element} msg.
Arguments ConsoleError {Element} msg.
Arguments SendMetricsEvent {Element} metrics groupName.
Arguments MoveFile {Element} provider projectUri source target.
Arguments Fire {Element}.

(** ** Asynchronous functions as tasks

    An [async] function is run to completion: every [await] is a call that
    is recorded in the trace and either hands back a value or throws.  The
    function's mutable locals live in the state next to the trace, so that
    what was written before a [throw] is still there in the [catch]. *)

Module Task.

Record Run (Element L : Type) : Type :=
  { trace : list (Event Element); locals : L }.

Arguments trace {Element L} _.
Arguments locals {Element L} _.

Definition t (Element L A : Type) : Type :=
  Run Element L -> Outcome A * Run Element L.

Section Combinators.

Context {Element L : Type}.

Definition ret {A : Type} (a : A) : t Element L A := fun r => (Returns a, r).

Definition throw {A : Type} (e : JsError) : t Element L A :=
  fun r => (Throws e, r).

Definition bind {A B : Type} (m : t Element L A) (k : A -> t Element L B)
  : t Element L B :=
  fun r =>
    match m r with
    | (Returns a, r') => k a r'
    | (Throws e, r') => (Throws e, r')
    end.

(** A call whose effect is only to be recorded. *)
Definition emit (ev : Event Element) : t Element L unit :=
  fun r => (Returns tt, {| trace := trace r ++ [ev]; locals := locals r |}).

(** [await callee(...)]: the call is recorded, the callee's outcome is the
    outcome of the [await]. *)
Definition await {A : Type} (ev : Event Element) (outcome : Outcome A)
  : t Element L A :=
  fun r => (outcome, {| trace := trace r ++ [ev]; locals := locals r |}).

Definition getLocals : t Element L L := fun r => (Returns (locals r), r).

Definition modify (f : L -> L) : t Element L unit :=
  fun r => (Returns tt, {| trace := trace r; locals := f (locals r) |}).

(** [try { body } catch (e) { handler }]. *)
Definition tryCatch {A : Type} (body : t Element L A)
  (handler : JsError -> t Element L A) : t Element L A :=
  fun r =>
    match body r with
    | (Returns a, r') => (Returns a, r')
    | (Throws e, r') => handler e r'
    end.

(** [void promise]: the callee runs, its result and its rejection are
    dropped.  The callee's effects are recorded right after the caller's;
    how they interleave with other handlers of the host is not modelled. *)
Definition void {A : Type} (m : t Element L A) : t Element L unit :=
  fun r => (Returns tt, snd (m r)).

(** [if (c) { m }] with no [else]. *)
Definition when (c : bool) (m : t Element L unit) : t Element L unit :=
  if c then m else ret tt.

(** [for (const x of xs) { body }]. *)
Fixpoint forOf {X : Type} (xs : list X) (body : X -> t Element L unit)
  : t Element L unit :=
  match xs with
  | [] => ret tt
  | x :: rest => bind (body x) (fun _ => forOf rest body)
  end.

End Combinators.

(** A block that declares its own locals, initialised to [init]; they are
    gone when the block is left. *)
Definition block {Element L A : Type} (init : L) (body : t Element L A)
  : t Element unit A :=
  fun r =>
    let (out, r') := body {| trace := trace r; locals := init |} in
    (out, {| trace := trace r'; locals := tt |}).

End Task.

Declare Scope task_scope.
Delimit Scope task_scope with task.

Notation "x <- c1 ;; c2" := (Task.bind c1 (fun x => c2))
  (at level 100, c1 at next level, right associativity) : task_scope.
Notation "c1 ;; c2" := (Task.bind c1 (fun _ => c2))
  (at level 100, right associativity) : task_scope.

Module WorkspaceTreeDataProvider.

(** The single entry of [dropMimeTypes]. *)
Definition dropMimeType : string :=
  "application/vnd.code.tree.WorkspaceTreeDataProvider".

(** The [TypeError] of reading a property of [undefined]. *)
Definition undefinedPropertyError (property : string) : JsError :=
  Thrown ("Cannot read properties of undefined (reading '" +:+ property +:+ "')").

(** The [TypeError] of reading a property of [null]. *)
Definition nullPropertyError (property : string) : JsError :=
  Thrown ("Cannot read properties of null (reading '" +:+ property +:+ "')").

(** [e.message] in a [catch (e)] clause. *)
Definition readMessage {Element L : Type} (e : JsError) : Task.t Element L string :=
  match e with
  | Thrown message => Task.ret message
  | ThrownUndefined => Task.throw (undefinedPropertyError "message")
  | ThrownNull => Task.throw (nullPropertyError "message")
  end.

Section Provider.

Context {Element : Type}.

(** [path.extname] of Node. *)
Variable extname : string -> string.

(** The [projectFileUri] property of a dragged element ([any] in the
    source): [None] when the element has none. *)
Variable projectFileUri : Element -> option Uri.

Variable constants : Constants.

Variable _workspaceService : IWorkspaceService.t Element.

(** The locals of the project branch of [getChildren]. *)
Record Locals : Type :=
  { unknownProjects : list string;
    treeItems : list (WorkspaceTreeItem Element);
    typeMetric : gmap string Z;
    errorCount : Z }.

Definition initialLocals : Locals :=
  {| unknownProjects := []; treeItems := []; typeMetric := ∅; errorCount := 0 |}.

Definition pushUnknownProject (projectPath : string) (l : Locals) : Locals :=
  {| unknownProjects := unknownProjects l ++ [projectPath];
     treeItems := treeItems l;
     typeMetric := typeMetric l;
     errorCount := errorCount l |}.

Definition pushTreeItems (items : list (WorkspaceTreeItem Element))
  (l : Locals) : Locals :=
  {| unknownProjects := unknownProjects l;
     treeItems := treeItems l ++ items;
     typeMetric := typeMetric l;
     errorCount := errorCount l |}.

Definition updateTypeMetric (f : gmap string Z -> gmap string Z)
  (l : Locals) : Locals :=
  {| unknownProjects := unknownProjects l;
     treeItems := treeItems l;
     typeMetric := f (typeMetric l);
     errorCount := errorCount l |}.

Definition incrementErrorCount (l : Locals) : Locals :=
  {| unknownProjects := unknownProjects l;
     treeItems := treeItems l;
     typeMetric := typeMetric l;
     errorCount := errorCount l + 1 |}.

(** [refresh()], lines 32-36. *)
Definition refresh {L : Type} : Task.t Element L unit :=
  (Task.emit (LoggerLog "Refreshing projects tree") ;;
   _ <- Task.await (GetProjectsInWorkspace None true)
          (IWorkspaceService.getProjectsInWorkspace _workspaceService None true) ;;
   Task.emit Fire)%task.

(** [incrementProjectTypeMetric], lines 107-115. *)
Definition incrementProjectTypeMetric (metric : gmap string Z)
  (projectUri : Uri) : gmap string Z :=
  let ext := extname (fsPath projectUri) in
  let metric :=
    match metric !! ext with
    | None => <[ext := 0]> metric
    | Some _ => metric
    end in
  <[ext := default 0 (metric !! ext) + 1]> metric.

Definition wrap (provider : TreeDataProvider.t Element) (item : Element)
  : WorkspaceTreeItem Element :=
  {| treeDataProvider := provider; element := item |}.

(** The body of the [try] block, lines 60-80. *)
Definition loadProject (project : Uri) : Task.t Element Locals unit :=
  (projectProvider <-
     Task.await (GetProjectProvider project)
       (IWorkspaceService.getProjectProvider _workspaceService project) ;;
   Task.modify
     (updateTypeMetric (fun metric => incrementProjectTypeMetric metric project)) ;;
   match projectProvider with
   | None => Task.modify (pushUnknownProject (path project))
   | Some projectProvider =>
       provider <-
         Task.await (GetProjectTreeDataProvider projectProvider project)
           (IProjectProvider.getProjectTreeDataProvider projectProvider project) ;;
       Task.when (TreeDataProvider.onDidChangeTreeData provider)
         (Task.emit (OnDidChangeTreeData provider)) ;;
       children <-
         Task.await (GetChildren provider None)
           (TreeDataProvider.getChildren provider None) ;;
       match children with
       | None => Task.ret tt
       | Some children => Task.modify (pushTreeItems (map (wrap provider) children))
       end
   end)%task.

(** One turn of the loop, lines 58-85.  The handler counts the error and
    then reads [e.message], which itself throws when [e] is [undefined] or
    [null]. *)
Definition loadProjectGuarded (project : Uri) : Task.t Element Locals unit :=
  Task.tryCatch (loadProject project)
    (fun e =>
       (Task.modify incrementErrorCount ;;
        message <- readMessage e ;;
        Task.emit (ConsoleError message))%task).

(** [getChildren(element?)], lines 42-105.  The parameter is called
    [parent] here, [element] being the projection of [WorkspaceTreeItem]. *)
Definition getChildren (parent : option (WorkspaceTreeItem Element))
  : Task.t Element unit (list (WorkspaceTreeItem Element)) :=
  match parent with
  | Some node =>
      (items <-
         Task.await
           (GetChildren (treeDataProvider node) (Some (element node)))
           (TreeDataProvider.getChildren (treeDataProvider node)
              (Some (element node))) ;;
       Task.ret
         match items with
         | Some items => map (wrap (treeDataProvider node)) items
         | None => []
         end)%task
  | None =>
      (Task.emit (LoggerLog "Calling getProjectsInWorkspace() from getChildren()") ;;
       projects <-
         Task.await (GetProjectsInWorkspace None false)
           (IWorkspaceService.getProjectsInWorkspace _workspaceService None false) ;;
       Task.emit
         (ExecuteCommand "setContext" "isProjectsViewEmpty"
            (Nat.eqb (length projects) 0)) ;;
       Task.block initialLocals
         (Task.forOf projects loadProjectGuarded ;;
          l <- Task.getLocals ;;
          Task.when (0 <? errorCount l)
            (Task.emit (ShowErrorMessage (ProjectsFailedToLoad constants))) ;;
          l <- Task.getLocals ;;
          Task.emit (SendMetricsEvent (typeMetric l) "OpenWorkspaceProjectTypes") ;;
          Task.emit
            (SendMetricsEvent
               {[ "handled" :=
                    Z.of_nat (length projects)
                    - Z.of_nat (length (unknownProjects l));
                  "unhandled" := Z.of_nat (length (unknownProjects l)) ]}
               "OpenWorkspaceProjectsHandled") ;;
          Task.when (0 <? Z.of_nat (length (unknownProjects l)))
            (Task.emit
               (ShowErrorMessage
                  (UnknownProjectsError constants (unknownProjects l)))) ;;
          Task.ret (treeItems l)))%task
  end.

(** [handleDrag], lines 117-119.  A [vscode.DataTransfer] is the map from
    mime types to the values stored under them. *)
Definition handleDrag (items : list (WorkspaceTreeItem Element))
  (dataTransfer : gmap string (list Element)) : gmap string (list Element) :=
  <[dropMimeType := map element items]> dataTransfer.

(** [handleDrop], lines 121-153. *)
Definition handleDrop (target : option (WorkspaceTreeItem Element))
  (sources : gmap string (list Element)) : Task.t Element unit unit :=
  match target with
  | None => Task.ret tt
  | Some target =>
      let transferItem := sources !! dropMimeType in
      if match transferItem with
         | Some value => Nat.ltb 1 (length value)
         | None => false
         end
      then Task.emit (ShowErrorMessage (onlyMovingOneFileIsSupported constants))
      else
        (projectUri <-
           match transferItem with
           | None => Task.ret None
           | Some value =>
               match value !! O with
               | None => Task.throw (undefinedPropertyError "projectFileUri")
               | Some dragged => Task.ret (projectFileUri dragged)
               end
           end ;;
         match projectUri with
         | None => Task.ret tt
         | Some projectUri =>
             projectProvider <-
               Task.await (GetProjectProvider projectUri)
                 (IWorkspaceService.getProjectProvider _workspaceService projectUri) ;;
             match projectProvider with
             | None => Task.ret tt
             | Some projectProvider =>
                 match IProjectProvider.supportsDragAndDrop projectProvider,
                       IProjectProvider.moveFile projectProvider with
                 | Some true, Some moveFile =>
                     let dragged := transferItem ≫= (fun value => value !! O) in
                     Task.await (MoveFile projectProvider projectUri dragged target)
                       (moveFile projectUri dragged target) ;;
                     Task.void refresh
                 | _, _ =>
                     Task.emit
                       (ShowErrorMessage (dragAndDropNotSupported constants))
                 end
             end
         end)%task
  end.

End Provider.

End WorkspaceTreeDataProvider.

(* ===================================================================== *)
(** * Part III. The long text viewer                                      *)
(* ===================================================================== *)

Module LongTextViewer.

(** [Slick.Position]; pixel positions are taken to be integers. *)
Record Position : Type := { top : Z; left : Z }.

(** The part of [Slick.Editors.EditorOptions] the viewer reads. *)
Record EditorOptions : Type :=
  { position_ : Position; columnField : string }.

(** [Slick.ValidateResults]; [msg: null] is [None]. *)
Record ValidateResults : Type := { valid : bool; msg : option string }.

(** A DOM element, reduced to what the viewer writes: the selector it was
    created from, its [style] attribute, the style properties assigned one
    by one, and the string last assigned to its [innerText] ([assignedText];
    the viewer never reads [innerText] back, and what the DOM would render
    of it is not modelled). *)
Record HTMLElement : Type :=
  { selector : string;
    styleAttribute : string;
    style : gmap string string;
    assignedText : string }.

Definition createElement (description : string) : HTMLElement :=
  {| selector := description; styleAttribute := ""; style := ∅; assignedText := "" |}.

Definition setAttributeStyle (value : string) (e : HTMLElement) : HTMLElement :=
  {| selector := selector e; styleAttribute := value;
     style := style e; assignedText := assignedText e |}.

Definition setStyle (property value : string) (e : HTMLElement) : HTMLElement :=
  {| selector := selector e; styleAttribute := styleAttribute e;
     style := <[property := value]> (style e); assignedText := assignedText e |}.

Definition setInnerText (value : string) (e : HTMLElement) : HTMLElement :=
  {| selector := selector e; styleAttribute := styleAttribute e;
     style := style e; assignedText := value |}.

(** The viewer: its constructor argument, its two elements, and whether the
    content element was the last one asked to take the focus. *)
Record t : Type :=
  { _args : EditorOptions;
    _wrapper : HTMLElement;
    _content : HTMLElement;
    contentFocused : bool }.

Definition px (n : Z) : string := pretty n +:+ "px".

(** [position(position)], lines 79-82. *)
Definition position (p : Position) (this : t) : t :=
  {| _args := _args this;
     _wrapper :=
       setStyle "left" (px (left p - 5))
         (setStyle "top" (px (top p - 5)) (_wrapper this));
     _content := _content this;
     contentFocused := contentFocused this |}.

(** [focus()], lines 52-54. *)
Definition focus (this : t) : t :=
  {| _args := _args this; _wrapper := _wrapper this;
     _content := _content this; contentFocused := true |}.

(** The constructor and [init()], lines 13-29. *)
Definition new (args : EditorOptions) : t :=
  let wrapperStyling :=
    "z-index:10000;position:absolute;background:white;padding:5px;border:3px solid gray; -moz-border-radius:10px; border-radius:10px;" in
  let contentStyling :=
    "backround:white;width:250px;height:80px;border:0;outline:0;user-select:text" in
  focus
    (position (position_ args)
       {| _args := args;
          _wrapper := setAttributeStyle wrapperStyling
                        (createElement ".longTextViewer-container");
          _content := setAttributeStyle contentStyling (createElement "span");
          contentFocused := false |}).

(** [handleKeyDown], [save], [cancel] and [destroy] have empty bodies. *)
Definition handleKeyDown (this : t) : t := this.
Definition save (this : t) : t := this.
Definition cancel (this : t) : t := this.
Definition destroy (this : t) : t := this.

(** [hide()] and [show()], lines 41-47. *)
Definition hide (this : t) : t :=
  {| _args := _args this; _wrapper := setStyle "display" "none" (_wrapper this);
     _content := _content this; contentFocused := contentFocused this |}.

Definition show (this : t) : t :=
  {| _args := _args this; _wrapper := setStyle "display" "" (_wrapper this);
     _content := _content this; contentFocused := contentFocused this |}.

(** The argument of [loadValue]: a string, or a row object whose [text]
    property is assigned; the properties of a row are taken to be
    strings. *)
Inductive Item : Type :=
  | StringItem (s : string)
  | DataItem (fields : gmap string string).

(** [loadValue(item)], lines 56-62; a missing [text] property assigns
    [undefined], which the setter of [innerText] converts to the string
    ['undefined']. *)
Definition loadValue (item : Item) (this : t) : t :=
  let value :=
    match item with
    | StringItem s => s
    | DataItem fields => default "undefined" (fields !! "text")
    end in
  {| _args := _args this; _wrapper := _wrapper this;
     _content := setInnerText value (_content this);
     contentFocused := contentFocused this |}.

(** [applyValue(item, state)], lines 64-66, on a row object: the viewer is
    untouched, the row gets [state] under the column's field. *)
Definition applyValue (this : t) (item : gmap string string) (state : string)
  : gmap string string :=
  <[columnField (_args this) := state]> item.

(** [isValueChanged()], lines 68-70. *)
Definition isValueChanged (this : t) : bool := false.

(** [validate()], lines 72-77. *)
Definition validate (this : t) : ValidateResults :=
  {| valid := true; msg := None |}.

(** [serializeValue()], lines 84-86. *)
Definition serializeValue (this : t) : string := "".

(** The calls that change a viewer's state. *)
Inductive Call : Type :=
  | Init
  | HandleKeyDown
  | Save
  | Cancel
  | Hide
  | Show
  | Destroy
  | Focus
  | LoadValue (item : Item)
  | SetPosition (p : Position).

Definition perform (this : t) (call : Call) : t :=
  match call with
  | Init => new (_args this)
  | HandleKeyDown => handleKeyDown this
  | Save => save this
  | Cancel => cancel this
  | Hide => hide this
  | Show => show this
  | Destroy => destroy this
  | Focus => focus this
  | LoadValue item => loadValue item this
  | SetPosition p => position p this
  end.

End LongTextViewer.

(* ===================================================================== *)
(** * Part IV. Specification vocabulary                                   *)
(* ===================================================================== *)

(** ** Lines, columns and tokens *)

Definition textLength (tok : TokenText) : Z := Z.of_nat (String.length (text tok)).

(** Number of characters of a run of tokens. *)
Fixpoint lineLength (rawTokens : list TokenText) : Z :=
  match rawTokens with
  | [] => 0
  | tok :: rest => textLength tok + lineLength rest
  end.

(** [holdsOffset start line offset tok]: in a line whose first character is
    at [start], the token [tok] is the one whose characters include
    [offset]; the first token also answers for everything to its left and
    the last one for everything to its right. *)
Definition holdsOffset (start : Z) (line : list TokenText) (offset : Z)
  (tok : TokenText) : Prop :=
  exists before after,
    line = before ++ tok :: after
    /\ (before = [] \/ start + lineLength before <= offset)
    /\ (after = [] \/ offset < start + lineLength before + textLength tok).

(** The token enclosing a 1-based [column]: the one holding the character in
    front of the column. *)
Definition encloses (line : list TokenText) (column : Z) (tok : TokenText)
  : Prop :=
  holdsOffset 0 line (column - 2) tok.

(** [column] sits exactly between the tokens [before] and the tokens
    [after] of a line. *)
Definition onTokenBoundary (line : list TokenText) (column : Z) : Prop :=
  exists before after,
    line = before ++ after /\ before <> [] /\ after <> []
    /\ column - 1 = lineLength before.

(** The pair has a [notIn] set and the name of the scope type [ty] is in
    it. *)
Definition typeListed (autoClosingPair : StandardAutoClosingPairConditional.t)
  (ty : StandardTokenType.t) : Prop :=
  exists scopes,
    StandardAutoClosingPairConditional.notIn autoClosingPair = Some scopes
    /\ In (StandardTokenType.scopeName ty) scopes.

(** The scope type of the token enclosing [column] is listed in the pair's
    [notIn]. *)
Definition scopeExcluded (autoClosingPair : StandardAutoClosingPairConditional.t)
  (line : list TokenText) (column : Z) : Prop :=
  exists tok, encloses line column tok /\ typeListed autoClosingPair (type tok).


(** ** The fixtures of characterPair.test.ts *)

Module Fixtures.

Definition braces (scopes : option (list string))
  : CharacterPairSupport.LanguageConfiguration :=
  {| CharacterPairSupport.autoClosingPairs :=
       Some [ {| IAutoClosingPairConditional.open := "{";
                 IAutoClosingPairConditional.close := "}";
                 IAutoClosingPairConditional.notIn := scopes |} ];
     CharacterPairSupport.brackets := None;
     CharacterPairSupport.surroundingPairs := None |}.

(** The pair that [new StandardAutoClosingPairConditional] builds from the
    braces entry. *)
Definition bracesPair (scopes : option (list string))
  : StandardAutoClosingPairConditional.t :=
  {| StandardAutoClosingPairConditional.open := "{";
     StandardAutoClosingPairConditional.close := "}";
     StandardAutoClosingPairConditional.notIn := scopes |}.

(** [{ open: '{', close: '}', notIn: ['string', 'comment'] }]. *)
Definition sup : CharacterPairSupport.t :=
  CharacterPairSupport.new (braces (Some ["string"; "comment"])).

(** [{ open: '{', close: '}' }]. *)
Definition supPlain : CharacterPairSupport.t :=
  CharacterPairSupport.new (braces None).

Definition notInteresting1 : list TokenText :=
  [ {| text := "do"; type := StandardTokenType.Other |} ].

Definition notInteresting2 : list TokenText :=
  [ {| text := "do"; type := StandardTokenType.String |} ].

(** The three characters of the string literal: quote, a, quote. *)
Definition quotedA : string :=
  let quote := String (Ascii.ascii_of_nat 34) EmptyString in
  quote +:+ "a" +:+ quote.

Definition interesting1 : list TokenText :=
  [ {| text := quotedA; type := StandardTokenType.String |} ].

Definition interesting2 : list TokenText :=
  [ {| text := "x="; type := StandardTokenType.Other |};
    {| text := quotedA; type := StandardTokenType.String |};
    {| text := ";"; type := StandardTokenType.Other |} ].

Definition interesting3 : list TokenText :=
  [ {| text := " "; type := StandardTokenType.Other |};
    {| text := "//a"; type := StandardTokenType.Comment |} ].

Definition ab : IAutoClosingPairConditional.t :=
  {| IAutoClosingPairConditional.open := "a";
     IAutoClosingPairConditional.close := "b";
     IAutoClosingPairConditional.notIn := None |}.

Definition abPlain : IAutoClosingPair.t :=
  {| IAutoClosingPair.open := "a"; IAutoClosingPair.close := "b" |}.

Definition config (auto : option (list IAutoClosingPairConditional.t))
  (bs : option (list (string * string)))
  (surrounding : option (list IAutoClosingPair.t))
  : CharacterPairSupport.LanguageConfiguration :=
  {| CharacterPairSupport.autoClosingPairs := auto;
     CharacterPairSupport.brackets := bs;
     CharacterPairSupport.surroundingPairs := surrounding |}.

End Fixtures.

(** ** Projects and what they contribute *)

Section WorkspaceVocabulary.

Context {Element : Type}.

Variable extname : string -> string.
Variable projectFileUri : Element -> option Uri.
Variable constants : Constants.
Variable _workspaceService : IWorkspaceService.t Element.

(** [inSubtree root node]: [node] is [root] or was returned by [getChildren]
    for a node of the subtree of [root]. *)
Inductive inSubtree (root : WorkspaceTreeItem Element)
  : WorkspaceTreeItem Element -> Prop :=
  | subtree_root : inSubtree root root
  | subtree_child (parent child : WorkspaceTreeItem Element)
      (items : list (WorkspaceTreeItem Element)) (r r' : Task.Run Element unit) :
      inSubtree root parent ->
      WorkspaceTreeDataProvider.getChildren extname constants _workspaceService
        (Some parent) r = (Returns items, r') ->
      In child items ->
      inSubtree root child.

(** The tree items one project contributes to the root of the tree: the
    children its own tree data provider answers for the root, each paired
    with that provider; nothing when the project has no provider, when a
    call throws, or when the provider answers [undefined]. *)
Definition projectChildren (project : Uri) : list (WorkspaceTreeItem Element) :=
  match IWorkspaceService.getProjectProvider _workspaceService project with
  | Returns (Some projectProvider) =>
      match IProjectProvider.getProjectTreeDataProvider projectProvider project with
      | Returns provider =>
          match TreeDataProvider.getChildren provider None with
          | Returns (Some children) =>
              map (fun child => {| treeDataProvider := provider; element := child |})
                children
          | Returns None => []
          | Throws _ => []
          end
      | Throws _ => []
      end
  | Returns None => []
  | Throws _ => []
  end.

(** [getProjectProvider] answers [undefined] for the project. *)
Definition providerUnknown (project : Uri) : bool :=
  match IWorkspaceService.getProjectProvider _workspaceService project with
  | Returns None => true
  | _ => false
  end.

(** Looking up the provider of the project, asking it for its tree data
    provider, or asking that one for its children, throws. *)
Definition providerThrows (project : Uri) : bool :=
  match IWorkspaceService.getProjectProvider _workspaceService project with
  | Throws _ => true
  | Returns None => false
  | Returns (Some projectProvider) =>
      match IProjectProvider.getProjectTreeDataProvider projectProvider project with
      | Throws _ => true
      | Returns provider =>
          match TreeDataProvider.getChildren provider None with
          | Throws _ => true
          | Returns _ => false
          end
      end
  end.

(** The paths of the projects without a provider, in project order. *)
Definition unknownPaths (projects : list Uri) : list string :=
  map path (List.filter providerUnknown projects).

(** The metrics of the [OpenWorkspaceProjectsHandled] telemetry event. *)
Definition handledMetrics (projects : list Uri) : gmap string Z :=
  {[ "handled" :=
       Z.of_nat (length projects) - Z.of_nat (length (unknownPaths projects));
     "unhandled" := Z.of_nat (length (unknownPaths projects)) ]}.

(** ** Drag and drop *)

Definition isMoveFile (ev : Event Element) : bool :=
  match ev with
  | MoveFile _ _ _ _ => true
  | _ => false
  end.

(** The three things [refresh()] does. *)
Definition isRefreshEvent (ev : Event Element) : bool :=
  match ev with
  | LoggerLog msg => String.eqb msg "Refreshing projects tree"
  | GetProjectsInWorkspace _ refreshFromDisk => refreshFromDisk
  | Fire => true
  | _ => false
  end.

(** Neither a file move nor any part of a refresh. *)
Definition quiet (ev : Event Element) : Prop :=
  isMoveFile ev = false /\ isRefreshEvent ev = false.

(** [transferItem?.value[0]]: the dragged element, if any. *)
Definition draggedItem (sources : gmap string (list Element)) : option Element :=
  sources !! WorkspaceTreeDataProvider.dropMimeType ≫= (fun value => value !! O).

(** The failure paths of [handleDrop]. *)
Inductive DropRefused (target : option (WorkspaceTreeItem Element))
  (sources : gmap string (list Element)) : Prop :=
  | NoTarget :
      target = None -> DropRefused target sources
  | SeveralItems (value : list Element) :
      sources !! WorkspaceTreeDataProvider.dropMimeType = Some value ->
      (1 < length value)%nat ->
      DropRefused target sources
  | NoProjectFileUri (dragged : Element) :
      draggedItem sources = Some dragged ->
      projectFileUri dragged = None ->
      DropRefused target sources
  | NoProjectProvider (dragged : Element) (projectUri : Uri) :
      draggedItem sources = Some dragged ->
      projectFileUri dragged = Some projectUri ->
      IWorkspaceService.getProjectProvider _workspaceService projectUri
      = Returns None ->
      DropRefused target sources
  | DragAndDropNotSupported (dragged : Element) (projectUri : Uri)
      (projectProvider : IProjectProvider.t Element) :
      draggedItem sources = Some dragged ->
      projectFileUri dragged = Some projectUri ->
      IWorkspaceService.getProjectProvider _workspaceService projectUri
      = Returns (Some projectProvider) ->
      IProjectProvider.supportsDragAndDrop projectProvider <> Some true
      \/ IProjectProvider.moveFile projectProvider = None ->
      DropRefused target sources.

(** Every check of [handleDrop] passes: there is a target, exactly one
    dragged element, it has a project file, that project has a provider, and
    the provider supports drag and drop and can move files. *)
Record DropAccepted (target : option (WorkspaceTreeItem Element))
  (sources : gmap string (list Element))
  (onto : WorkspaceTreeItem Element) (dragged : Element) (projectUri : Uri)
  (projectProvider : IProjectProvider.t Element)
  (move : Uri -> option Element -> WorkspaceTreeItem Element -> Outcome unit)
  : Prop :=
  { accepted_target : target = Some onto;
    accepted_single :
      sources !! WorkspaceTreeDataProvider.dropMimeType = Some [dragged];
    accepted_projectUri : projectFileUri dragged = Some projectUri;
    accepted_provider :
      IWorkspaceService.getProjectProvider _workspaceService projectUri
      = Returns (Some projectProvider);
    accepted_supported :
      IProjectProvider.supportsDragAndDrop projectProvider = Some true;
    accepted_moveFile : IProjectProvider.moveFile projectProvider = Some move }.

(** What a drop adds to the trace once every check has passed: the lookup
    of the provider, the move, and, when the move returns, a refresh. *)
Definition acceptedEvents (onto : WorkspaceTreeItem Element) (dragged : Element)
  (projectUri : Uri) (projectProvider : IProjectProvider.t Element)
  (move : Uri -> option Element -> WorkspaceTreeItem Element -> Outcome unit)
  : list (Event Element) :=
  [GetProjectProvider projectUri;
   MoveFile projectProvider projectUri (Some dragged) onto]
  ++ match move projectUri (Some dragged) onto with
     | Throws _ => []
     | Returns _ =>
         [LoggerLog "Refreshing projects tree"; GetProjectsInWorkspace None true]
         ++ match IWorkspaceService.getProjectsInWorkspace _workspaceService
                    None true with
            | Returns _ => [Fire]
            | Throws _ => []
            end
     end.

End WorkspaceVocabulary.

(** ** A sample workspace

    Three projects: one with a provider that contributes two nodes, one of
    an unknown type, and one whose provider fails to build its tree. *)

Module Sample.

Definition uri (p : string) : Uri := {| fsPath := p; path := p |}.

Definition sqlProject : Uri := uri "/w/a.sqlproj".
Definition strayProject : Uri := uri "/w/b.txt".
Definition brokenProject : Uri := uri "/w/c.sqlproj".

(** Elements are file names; the project file of each dragged file. *)
Definition projectFileUri (file : string) : option Uri :=
  if String.eqb file "users.sql" then Some sqlProject
  else if String.eqb file "orders.sql" then Some sqlProject
  else if String.eqb file "notes.txt" then Some strayProject
  else None.

Definition sqlTree : TreeDataProvider.t string :=
  {| TreeDataProvider.getChildren :=
       fun parent =>
         match parent with
         | None => Returns (Some ["tables.sql"; "views.sql"])
         | Some file =>
             if String.eqb file "tables.sql"
             then Returns (Some ["users.sql"; "orders.sql"])
             else Returns None
         end;
     TreeDataProvider.onDidChangeTreeData := true |}.

Definition sqlProvider : IProjectProvider.t string :=
  {| IProjectProvider.getProjectTreeDataProvider :=
       fun project =>
         if String.eqb (path project) (path brokenProject)
         then Throws (Thrown "cannot read project")
         else Returns sqlTree;
     IProjectProvider.supportsDragAndDrop := Some true;
     IProjectProvider.moveFile := Some (fun _ _ _ => Returns tt) |}.

Definition workspace (projects : Outcome (list Uri)) : IWorkspaceService.t string :=
  {| IWorkspaceService.getProjectsInWorkspace := fun _ _ => projects;
     IWorkspaceService.getProjectProvider :=
       fun project =>
         if String.eqb (path project) (path strayProject)
         then Returns None
         else Returns (Some sqlProvider) |}.

Definition service : IWorkspaceService.t string :=
  workspace (Returns [sqlProject; strayProject; brokenProject]).

(** A workspace whose projects cannot be listed. *)
Definition unreadable : IWorkspaceService.t string :=
  workspace (Throws (Thrown "workspace folder is gone")).

Definition constants : Constants :=
  {| dragAndDropNotSupported := "drag and drop is not supported";
     onlyMovingOneFileIsSupported := "only one file can be moved";
     ProjectsFailedToLoad := "some projects failed to load";
     UnknownProjectsError := fun paths => "no provider for: " +:+ String.concat ", " paths |}.

(** [path.extname] on the three sample paths. *)
Definition extname (p : string) : string :=
  if String.eqb p "/w/b.txt" then ".txt" else ".sqlproj".

Definition start : Task.Run string unit := {| Task.trace := []; Task.locals := tt |}.

(** A project whose provider rejects with no reason at all
    ([Promise.reject()]), listed before the sql project. *)
Definition voidProject : Uri := uri "/w/d.sqlproj".

Definition voidProvider : IProjectProvider.t string :=
  {| IProjectProvider.getProjectTreeDataProvider := fun _ => Throws ThrownUndefined;
     IProjectProvider.supportsDragAndDrop := None;
     IProjectProvider.moveFile := None |}.

Definition faulty : IWorkspaceService.t string :=
  {| IWorkspaceService.getProjectsInWorkspace :=
       fun _ _ => Returns [voidProject; sqlProject];
     IWorkspaceService.getProjectProvider :=
       fun project =>
         if String.eqb (path project) (path voidProject)
         then Returns (Some voidProvider)
         else Returns (Some sqlProvider) |}.

Definition node (file : string) : WorkspaceTreeItem string :=
  {| treeDataProvider := sqlTree; element := file |}.

(** A drag of [files]. *)
Definition dragging (files : list string) : gmap string (list string) :=
  {[ WorkspaceTreeDataProvider.dropMimeType := files ]}.

End Sample.

(** ** Vocabulary for the effects of the project loop *)

Section LoopVocabulary.

Context {Element : Type}.

Variable extname : string -> string.
Variable constants : Constants.
Variable _workspaceService : IWorkspaceService.t Element.

(** The lookup of the project's provider returns (with a provider or with
    [undefined]) instead of throwing. *)
Definition lookedUp (project : Uri) : bool :=
  match IWorkspaceService.getProjectProvider _workspaceService project with
  | Returns _ => true
  | Throws _ => false
  end.

(** The project has a provider, the provider hands out a tree data provider,
    and that one has an [onDidChangeTreeData] event. *)
Definition subscribes (project : Uri) : bool :=
  match IWorkspaceService.getProjectProvider _workspaceService project with
  | Returns (Some projectProvider) =>
      match IProjectProvider.getProjectTreeDataProvider projectProvider project with
      | Returns provider => TreeDataProvider.onDidChangeTreeData provider
      | Throws _ => false
      end
  | _ => false
  end.

Definition isSubscription (ev : Event Element) : bool :=
  match ev with
  | OnDidChangeTreeData _ => true
  | _ => false
  end.

(** What the [catch] handler does with an error: it logs the message, unless
    reading the message throws. *)
Definition handlerEvents (e : JsError) : list (Event Element) :=
  match e with
  | Thrown message => [ConsoleError message]
  | ThrownUndefined => []
  | ThrownNull => []
  end.

(** The error the [catch] handler itself throws for the error [e], if any. *)
Definition handlerError (e : JsError) : option JsError :=
  match e with
  | Thrown _ => None
  | ThrownUndefined =>
      Some (WorkspaceTreeDataProvider.undefinedPropertyError "message")
  | ThrownNull => Some (WorkspaceTreeDataProvider.nullPropertyError "message")
  end.

(** The first error thrown while the project is loaded, if any. *)
Definition loadError (project : Uri) : option JsError :=
  match IWorkspaceService.getProjectProvider _workspaceService project with
  | Throws e => Some e
  | Returns None => None
  | Returns (Some projectProvider) =>
      match IProjectProvider.getProjectTreeDataProvider projectProvider project with
      | Throws e => Some e
      | Returns provider =>
          match TreeDataProvider.getChildren provider None with
          | Throws e => Some e
          | Returns _ => None
          end
      end
  end.

(** The error with which loading the project leaves the loop, if any: the
    project threw [undefined] or [null] and the handler threw in turn. *)
Definition abortsLoop (project : Uri) : option JsError :=
  match loadError project with
  | Some e => handlerError e
  | None => None
  end.

(** The projects the loop gets to: all of them up to and including the
    first that makes the handler throw. *)
Fixpoint processed (projects : list Uri) : list Uri :=
  match projects with
  | [] => []
  | project :: rest =>
      project
      :: match abortsLoop project with
         | Some _ => []
         | None => processed rest
         end
  end.

(** The error with which the loop ends, if any. *)
Fixpoint loopError (projects : list Uri) : option JsError :=
  match projects with
  | [] => None
  | project :: rest =>
      match abortsLoop project with
      | Some err => Some err
      | None => loopError rest
      end
  end.

(** What loading one project does to the outside world, call by call. *)
Definition projectEvents (project : Uri) : list (Event Element) :=
  GetProjectProvider project
  :: match IWorkspaceService.getProjectProvider _workspaceService project with
     | Throws e => handlerEvents e
     | Returns None => []
     | Returns (Some projectProvider) =>
         GetProjectTreeDataProvider projectProvider project
         :: match IProjectProvider.getProjectTreeDataProvider projectProvider
                    project with
            | Throws e => handlerEvents e
            | Returns provider =>
                (if TreeDataProvider.onDidChangeTreeData provider
                 then [OnDidChangeTreeData provider] else [])
                ++ GetChildren provider None
                   :: match TreeDataProvider.getChildren provider None with
                      | Throws e => handlerEvents e
                      | Returns _ => []
                      end
            end
     end.

(** The type metric after the loop: one increment per project whose provider
    lookup returned, in project order. *)
Definition typeCounts (projects : list Uri) : gmap string Z :=
  fold_left
    (fun metric project =>
       if lookedUp project
       then WorkspaceTreeDataProvider.incrementProjectTypeMetric extname metric project
       else metric)
    projects ∅.

(** Where a loop turn leaves the outcome of the loop. *)
Definition turnOutcome (project : Uri) : Outcome unit :=
  match abortsLoop project with
  | Some err => Throws err
  | None => Returns tt
  end.

(** The type metric after counting [projects] on top of [metric]. *)
Definition countTypes (metric : gmap string Z) (projects : list Uri)
  : gmap string Z :=
  fold_left
    (fun metric project =>
       if lookedUp project
       then WorkspaceTreeDataProvider.incrementProjectTypeMetric extname metric project
       else metric)
    projects metric.

(** What follows the loop when it ends normally. *)
Definition afterLoop (projects : list Uri) : list (Event Element) :=
  (if existsb (providerThrows _workspaceService) projects
   then [ShowErrorMessage (ProjectsFailedToLoad constants)] else [])
  ++ [SendMetricsEvent (typeCounts projects)
        "OpenWorkspaceProjectTypes";
      SendMetricsEvent (handledMetrics _workspaceService projects)
        "OpenWorkspaceProjectsHandled"]
  ++ (if existsb (providerUnknown _workspaceService) projects
      then [ShowErrorMessage
              (UnknownProjectsError constants
                 (unknownPaths _workspaceService projects))]
      else []).

(** What precedes the loop. *)
Definition beforeLoop (projects : list Uri) : list (Event Element) :=
  [LoggerLog "Calling getProjectsInWorkspace() from getChildren()";
   GetProjectsInWorkspace None false;
   ExecuteCommand "setContext" "isProjectsViewEmpty" (bool_decide (projects = []))].

(** The projects counted under the extension [ext]. *)
Definition countedAs (ext : string) (project : Uri) : bool :=
  lookedUp project && String.eqb (extname (fsPath project)) ext.

End LoopVocabulary.

(** ** Vocabulary for the long text viewer *)

(** Calls that neither load a value nor rebuild the elements. *)
Definition keepsText (call : LongTextViewer.Call) : bool :=
  match call with
  | LongTextViewer.Init => false
  | LongTextViewer.LoadValue _ => false
  | _ => true
  end.

(** What every viewer built by the constructor satisfies, whatever is
    called on it afterwards. *)
Definition wellFormed (args : LongTextViewer.EditorOptions)
  (viewer : LongTextViewer.t) : Prop :=
  LongTextViewer._args viewer = args
  /\ LongTextViewer.selector (LongTextViewer._wrapper viewer)
     = ".longTextViewer-container"
  /\ LongTextViewer.selector (LongTextViewer._content viewer) = "span"
  /\ LongTextViewer.contentFocused viewer = true
  /\ is_Some (LongTextViewer.style (LongTextViewer._wrapper viewer) !! "top")
  /\ is_Some (LongTextViewer.style (LongTextViewer._wrapper viewer) !! "left")
  /\ LongTextViewer.style (LongTextViewer._content viewer) = ∅.

(* ===================================================================== *)
(** * Part V. Character pair support: theorems                            *)
(* ===================================================================== *)

(** The model agrees with every [shouldAutoClose] assertion of the test
    file (tests "shouldAutoClosePair in ..."). *)
Lemma characterPair_test_suite :
  testShouldAutoClose Fixtures.sup [] 1 = Some true
  /\ testShouldAutoClose Fixtures.sup Fixtures.notInteresting1 3 = Some true
  /\ testShouldAutoClose Fixtures.supPlain Fixtures.notInteresting2 3 = Some true
  /\ map (testShouldAutoClose Fixtures.sup Fixtures.interesting1) [1; 2; 3; 4]
     = map Some [false; false; false; false]
  /\ map (testShouldAutoClose Fixtures.sup Fixtures.interesting2)
       [1; 2; 3; 4; 5; 6; 7]
     = map Some [true; true; true; false; false; false; true]
  /\ map (testShouldAutoClose Fixtures.sup Fixtures.interesting3) [1; 2; 3; 4; 5]
     = map Some [true; true; false; false; false].
Proof. repeat split; reflexivity. Qed.

(** The model agrees with the seven configuration tests of the file. *)
Lemma characterPair_configuration_tests :
  let std := StandardAutoClosingPairConditional.new Fixtures.ab in
  let pairsOf c :=
    (CharacterPairSupport.getAutoClosingPairs (CharacterPairSupport.new c),
     CharacterPairSupport.getSurroundingPairs (CharacterPairSupport.new c)) in
  pairsOf (Fixtures.config (Some [Fixtures.ab]) None None)
    = ([std], [CharacterPairSupport.AutoClosing std])
  /\ pairsOf (Fixtures.config (Some []) None None) = ([], [])
  /\ pairsOf (Fixtures.config None (Some [("a", "b")]) None)
    = ([std], [CharacterPairSupport.AutoClosing std])
  /\ pairsOf (Fixtures.config None (Some []) None) = ([], [])
  /\ pairsOf (Fixtures.config None None (Some [Fixtures.abPlain]))
    = ([], [CharacterPairSupport.Configured Fixtures.abPlain])
  /\ pairsOf (Fixtures.config None None (Some [])) = ([], [])
  /\ pairsOf (Fixtures.config (Some []) (Some [("a", "b")]) None) = ([], []).
Proof. repeat split; reflexivity. Qed.

(** ** The scan finds the enclosing token *)

Lemma textLength_nonneg (tok : TokenText) : 0 <= textLength tok.
Proof. unfold textLength. lia. Qed.

Lemma lineLength_nonneg (line : list TokenText) : 0 <= lineLength line.
Proof.
  induction line as [|tok rest IH]; simpl; [lia|].
  pose proof (textLength_nonneg tok). lia.
Qed.

Lemma lineLength_app (l1 l2 : list TokenText) :
  lineLength (l1 ++ l2) = lineLength l1 + lineLength l2.
Proof. induction l1 as [|tok rest IH]; simpl; lia. Qed.

Lemma fakeTokensFrom_length (line : list TokenText) (start : Z) :
  length (fakeTokensFrom start line) = length line.
Proof.
  revert start. induction line as [|tok rest IH]; intros start; simpl; auto.
Qed.

(** The scan over the fake tokens lands on a token that holds the offset. *)
Lemma scan_finds_holder (line : list TokenText) :
  forall start offset,
    line <> [] ->
    exists tok,
      ScopedLineTokens.getStandardTokenType (fakeTokensFrom start line)
        (ScopedLineTokens.findTokenIndexAtOffset (fakeTokensFrom start line) offset)
      = type tok
      /\ holdsOffset start line offset tok.
Proof.
  induction line as [|tok rest IH]; intros start offset Hne; [congruence|].
  destruct rest as [|tok' rest'].
  - exists tok. split; [reflexivity|].
    exists [], []. simpl. auto.
  - cbn [fakeTokensFrom ScopedLineTokens.findTokenIndexAtOffset].
    fold (textLength tok).
    cbn [ScopedLineTokens.endOffset].
    destruct (Z.ltb_spec offset (start + textLength tok)) as [Hlt|Hge].
    + exists tok. split; [reflexivity|].
      exists [], (tok' :: rest'). simpl. split; [reflexivity|].
      split; [left; reflexivity|right; lia].
    + destruct (IH (start + textLength tok) offset) as (found & Hty & Hhold);
        [discriminate|].
      exists found. split.
      * exact Hty.
      * destruct Hhold as (before & after & Hline & Hlo & Hhi).
        exists (tok :: before), after. simpl. rewrite Hline.
        split; [reflexivity|]. split.
        -- right. destruct Hlo as [->|Hlo]; simpl; lia.
        -- destruct Hhi as [->|Hhi]; [left; reflexivity|right; lia].
Qed.

(** At most one token of a line holds a given offset. *)
Lemma holdsOffset_unique (start : Z) (line : list TokenText) (offset : Z)
  (tok1 tok2 : TokenText) :
  holdsOffset start line offset tok1 ->
  holdsOffset start line offset tok2 ->
  tok1 = tok2.
Proof.
  intros (b1 & a1 & H1 & Hlo1 & Hhi1) (b2 & a2 & H2 & Hlo2 & Hhi2).
  rewrite H1 in H2.
  apply app_eq_app in H2 as [mid [[Hb Ha]|[Hb Ha]]].
  - destruct mid as [|m mid'].
    + simpl in Ha. congruence.
    + simpl in Ha. injection Ha as -> ->.
      subst b1. rewrite lineLength_app in Hlo1. simpl in Hlo1.
      pose proof (lineLength_nonneg mid').
      destruct Hlo1 as [Hnil|Hlo1]; [destruct b2; discriminate|].
      destruct Hhi2 as [Hnil|Hhi2]; [destruct mid'; discriminate|].
      lia.
  - destruct mid as [|m mid'].
    + simpl in Ha. congruence.
    + simpl in Ha. injection Ha as -> ->.
      subst b2. rewrite lineLength_app in Hlo2. simpl in Hlo2.
      pose proof (lineLength_nonneg mid').
      destruct Hlo2 as [Hnil|Hlo2]; [destruct b1; discriminate|].
      destruct Hhi1 as [Hnil|Hhi1]; [destruct mid'; discriminate|].
      lia.
Qed.

(** On a non-empty line [shouldAutoClose] is the verdict of the pair on the
    type of the enclosing token. *)
Lemma shouldAutoClose_enclosing
  (autoClosingPair : StandardAutoClosingPairConditional.t)
  (line : list TokenText) (column : Z) (tok : TokenText) :
  encloses line column tok ->
  StandardAutoClosingPairConditional.shouldAutoClose autoClosingPair
    (createFakeScopedLineTokens line) column
  = StandardAutoClosingPairConditional.isOK autoClosingPair (type tok).
Proof.
  intros Henc.
  assert (Hne : line <> []).
  { destruct Henc as (before & after & -> & _). destruct before; discriminate. }
  destruct (scan_finds_holder line 0 (column - 2) Hne) as (found & Hty & Hhold).
  rewrite (holdsOffset_unique _ _ _ _ _ Henc Hhold).
  unfold StandardAutoClosingPairConditional.shouldAutoClose,
    ScopedLineTokens.getTokenCount, createFakeScopedLineTokens.
  rewrite fakeTokensFrom_length.
  destruct line as [|first rest]; [congruence|].
  cbn [length Nat.eqb]. rewrite Hty. reflexivity.
Qed.

Lemma listed_In (scope : string) (scopes : list string) :
  StandardAutoClosingPairConditional.listed scope scopes = true <-> In scope scopes.
Proof.
  unfold StandardAutoClosingPairConditional.listed.
  rewrite existsb_exists. split.
  - intros (s & Hin & Heq). apply String.eqb_eq in Heq. subst. exact Hin.
  - intros Hin. exists scope. split; [exact Hin|apply String.eqb_refl].
Qed.

Lemma isOK_false_iff (autoClosingPair : StandardAutoClosingPairConditional.t)
  (ty : StandardTokenType.t) :
  StandardAutoClosingPairConditional.isOK autoClosingPair ty = false
  <-> typeListed autoClosingPair ty.
Proof.
  unfold StandardAutoClosingPairConditional.isOK, typeListed.
  destruct (StandardAutoClosingPairConditional.notIn autoClosingPair) as [scopes|].
  - rewrite negb_false_iff, listed_In. split.
    + intros Hin. exists scopes. auto.
    + intros (scopes' & Heq & Hin). congruence.
  - split; [discriminate|]. intros (scopes & Heq & _). discriminate.
Qed.

Lemma isOK_true_iff (autoClosingPair : StandardAutoClosingPairConditional.t)
  (ty : StandardTokenType.t) :
  StandardAutoClosingPairConditional.isOK autoClosingPair ty = true
  <-> ~ typeListed autoClosingPair ty.
Proof. rewrite <- isOK_false_iff. symmetry. apply not_false_iff_true. Qed.

Lemma shouldAutoClose_empty_line
  (autoClosingPair : StandardAutoClosingPairConditional.t) (column : Z) :
  StandardAutoClosingPairConditional.shouldAutoClose autoClosingPair
    (createFakeScopedLineTokens []) column = true.
Proof. reflexivity. Qed.

Lemma nonempty_line_has_enclosing (line : list TokenText) (column : Z) :
  line <> [] -> exists tok, encloses line column tok.
Proof.
  intros Hne.
  destruct (scan_finds_holder line 0 (column - 2) Hne) as (tok & _ & Hhold).
  exists tok. exact Hhold.
Qed.

(** C1. For every auto-closing pair, tokenized line and column,
    [shouldAutoClose] returns false exactly when the standard token type of
    the token enclosing the column is listed in the pair's [notIn] set, and
    true otherwise; it is true everywhere when the pair has no [notIn]. *)
Theorem shouldAutoClose_false_iff_scope_excluded
  (autoClosingPair : StandardAutoClosingPairConditional.t)
  (line : list TokenText) (column : Z) :
  (StandardAutoClosingPairConditional.shouldAutoClose autoClosingPair
     (createFakeScopedLineTokens line) column = false
   <-> scopeExcluded autoClosingPair line column)
  /\ (StandardAutoClosingPairConditional.shouldAutoClose autoClosingPair
        (createFakeScopedLineTokens line) column = true
      <-> ~ scopeExcluded autoClosingPair line column)
  /\ (StandardAutoClosingPairConditional.notIn autoClosingPair = None ->
      StandardAutoClosingPairConditional.shouldAutoClose autoClosingPair
        (createFakeScopedLineTokens line) column = true).
Proof.
  assert (Hfalse :
    StandardAutoClosingPairConditional.shouldAutoClose autoClosingPair
      (createFakeScopedLineTokens line) column = false
    <-> scopeExcluded autoClosingPair line column).
  { split.
    - intros Hres.
      destruct line as [|first rest]; [discriminate Hres|].
      destruct (nonempty_line_has_enclosing (first :: rest) column) as [tok Henc];
        [discriminate|].
      rewrite (shouldAutoClose_enclosing _ _ _ _ Henc) in Hres.
      exists tok. split; [exact Henc|]. apply isOK_false_iff. exact Hres.
    - intros (tok & Henc & Hlisted).
      rewrite (shouldAutoClose_enclosing _ _ _ _ Henc).
      apply isOK_false_iff. exact Hlisted. }
  split; [exact Hfalse|]. split.
  - rewrite <- Hfalse. symmetry. apply not_false_iff_true.
  - intros Hnone. apply not_false_iff_true. rewrite Hfalse.
    intros (tok & _ & scopes & Hnot & _). congruence.
Qed.

Lemma shouldAutoClose_false_iff_scope_excluded_witness :
  scopeExcluded (Fixtures.bracesPair (Some ["string"; "comment"]))
    Fixtures.interesting2 4
  /\ StandardAutoClosingPairConditional.shouldAutoClose (Fixtures.bracesPair None)
       (createFakeScopedLineTokens Fixtures.interesting2) 4 = true.
Proof.
  split.
  - apply (proj1 (shouldAutoClose_false_iff_scope_excluded
                    (Fixtures.bracesPair (Some ["string"; "comment"]))
                    Fixtures.interesting2 4)).
    reflexivity.
  - apply (proj2 (proj2 (shouldAutoClose_false_iff_scope_excluded
                           (Fixtures.bracesPair None) Fixtures.interesting2 4))).
    reflexivity.
Defined.

(** ** Token boundaries *)

(** The token that ends right in front of a column encloses it. *)
Lemma left_token_encloses (before : list TokenText) (tok : TokenText)
  (after : list TokenText) (column : Z) :
  0 < textLength tok ->
  column - 1 = lineLength (before ++ [tok]) ->
  encloses (before ++ tok :: after) column tok.
Proof.
  intros Hlen Hcol. rewrite lineLength_app in Hcol. simpl in Hcol.
  exists before, after. split; [reflexivity|]. split; right; lia.
Qed.

(** The first token encloses every column up to its end. *)
Lemma first_token_encloses (tok : TokenText) (after : list TokenText)
  (column : Z) :
  column - 1 <= textLength tok ->
  encloses (tok :: after) column tok.
Proof.
  intros Hcol. exists [], after. simpl.
  split; [reflexivity|]. split; [left; reflexivity|right; lia].
Qed.

(** C2, as the code has it.  On an empty token list [shouldAutoClose] is
    true.  At a column on a token boundary the verdict is the one of the
    token that ends there (the token to the left of the column): it is
    true there exactly when that token's type is not listed in [notIn].  At
    column 1 the first token decides in the same way. *)
Theorem shouldAutoClose_empty_or_left_token
  (autoClosingPair : StandardAutoClosingPairConditional.t) :
  (forall column,
     StandardAutoClosingPairConditional.shouldAutoClose autoClosingPair
       (createFakeScopedLineTokens []) column = true)
  /\ (forall before tok after column,
        0 < textLength tok ->
        column - 1 = lineLength (before ++ [tok]) ->
        StandardAutoClosingPairConditional.shouldAutoClose autoClosingPair
          (createFakeScopedLineTokens (before ++ tok :: after)) column = true
        <-> ~ typeListed autoClosingPair (type tok))
  /\ (forall tok after,
        StandardAutoClosingPairConditional.shouldAutoClose autoClosingPair
          (createFakeScopedLineTokens (tok :: after)) 1 = true
        <-> ~ typeListed autoClosingPair (type tok)).
Proof.
  split; [|split].
  - intros column. apply shouldAutoClose_empty_line.
  - intros before tok after column Hlen Hcol.
    rewrite (shouldAutoClose_enclosing autoClosingPair _ column tok).
    + apply isOK_true_iff.
    + apply left_token_encloses; assumption.
  - intros tok after.
    rewrite (shouldAutoClose_enclosing autoClosingPair _ 1 tok).
    + apply isOK_true_iff.
    + apply first_token_encloses.
      pose proof (textLength_nonneg tok). lia.
Qed.

Lemma shouldAutoClose_empty_or_left_token_witness :
  StandardAutoClosingPairConditional.shouldAutoClose
    (Fixtures.bracesPair (Some ["string"; "comment"]))
    (createFakeScopedLineTokens Fixtures.interesting3) 2 = true
  <-> ~ typeListed (Fixtures.bracesPair (Some ["string"; "comment"]))
          StandardTokenType.Other.
Proof.
  apply (proj1 (proj2 (shouldAutoClose_empty_or_left_token
                         (Fixtures.bracesPair (Some ["string"; "comment"]))))
           [] {| text := " "; type := StandardTokenType.Other |}
           [ {| text := "//a"; type := StandardTokenType.Comment |} ] 2).
  - reflexivity.
  - reflexivity.
Defined.

(** C2, as stated, fails: in the line [x="a";] of the test "interesting
    line 2", column 6 lies between the string token and the semicolon
    token, and [shouldAutoClose] answers false there (the test asserts
    it). *)
Lemma boundary_column_refused :
  onTokenBoundary Fixtures.interesting2 6
  /\ StandardAutoClosingPairConditional.shouldAutoClose
       (Fixtures.bracesPair (Some ["string"; "comment"]))
       (createFakeScopedLineTokens Fixtures.interesting2) 6 = false.
Proof.
  split.
  - exists [ {| text := "x="; type := StandardTokenType.Other |};
             {| text := Fixtures.quotedA; type := StandardTokenType.String |} ],
           [ {| text := ";"; type := StandardTokenType.Other |} ].
    repeat split; try discriminate; reflexivity.
  - reflexivity.
Qed.

(** ** Configuration precedence *)



(* ===================================================================== *)
(** * Part VI. Workspace tree data provider: theorems                     *)
(* ===================================================================== *)

Section WorkspaceTheorems.

Context {Element : Type}.

Variable extname : string -> string.
Variable projectFileUri : Element -> option Uri.
Variable constants : Constants.
Variable _workspaceService : IWorkspaceService.t Element.

(** ** refresh *)


(** ** getChildren of a node *)

(** The items returned for a node all carry the node's provider. *)
Lemma children_share_provider (node : WorkspaceTreeItem Element)
  (r r' : Task.Run Element unit) (items : list (WorkspaceTreeItem Element)) :
  WorkspaceTreeDataProvider.getChildren extname constants _workspaceService
    (Some node) r = (Returns items, r') ->
  Forall (fun item => treeDataProvider item = treeDataProvider node) items.
Proof.
  unfold WorkspaceTreeDataProvider.getChildren, Task.bind, Task.await, Task.ret.
  intros Hrun.
  destruct (TreeDataProvider.getChildren (treeDataProvider node)
              (Some (element node))) as [[children|]|e]; [| |discriminate Hrun].
  - injection Hrun as <- _.
    apply List.Forall_forall. intros item Hin.
    apply in_map_iff in Hin as (child & <- & _). reflexivity.
  - injection Hrun as <- _. constructor.
Qed.

(** C7. Every item [getChildren] returns for a parent node carries the
    parent's tree data provider, so every node of a subtree carries the
    provider of the subtree's root; when the provider answers no children
    ([undefined] or an empty list) the empty list is returned; and whenever
    the provider answers, [getChildren] returns its children, in order, each
    paired with that provider. *)
Theorem children_carry_parent_provider
  (node : WorkspaceTreeItem Element) (r : Task.Run Element unit) :
  (forall items r',
     WorkspaceTreeDataProvider.getChildren extname constants _workspaceService
       (Some node) r = (Returns items, r') ->
     Forall (fun item => treeDataProvider item = treeDataProvider node) items)
  /\ (forall descendant,
        inSubtree extname constants _workspaceService node descendant ->
        treeDataProvider descendant = treeDataProvider node)
  /\ (TreeDataProvider.getChildren (treeDataProvider node) (Some (element node))
      = Returns None
      \/ TreeDataProvider.getChildren (treeDataProvider node) (Some (element node))
         = Returns (Some []) ->
      fst (WorkspaceTreeDataProvider.getChildren extname constants _workspaceService
             (Some node) r) = Returns [])
  /\ (forall children,
        TreeDataProvider.getChildren (treeDataProvider node) (Some (element node))
        = Returns children ->
        fst (WorkspaceTreeDataProvider.getChildren extname constants
               _workspaceService (Some node) r)
        = Returns
            (map (fun child =>
                    {| treeDataProvider := treeDataProvider node; element := child |})
               (default [] children))).
Proof.
  split; [|split; [|split]].
  - intros items r' Hrun. exact (children_share_provider node r r' items Hrun).
  - intros descendant Hsub.
    induction Hsub as [|parent child items r0 r1 _ IH Hrun Hin]; [reflexivity|].
    pose proof (children_share_provider parent r0 r1 items Hrun) as Hall.
    rewrite List.Forall_forall in Hall.
    rewrite (Hall child Hin). exact IH.
  - unfold WorkspaceTreeDataProvider.getChildren, Task.bind, Task.await, Task.ret.
    intros [-> | ->]; reflexivity.
  - unfold WorkspaceTreeDataProvider.getChildren, Task.bind, Task.await, Task.ret.
    intros [children|] ->; reflexivity.
Qed.

(** ** handleDrop *)

Ltac drop_run :=
  unfold WorkspaceTreeDataProvider.handleDrop, Task.bind, Task.await, Task.emit,
    Task.ret, Task.throw, Task.void;
  cbn [Task.trace Task.locals fst snd].

Ltac refute_refused H :=
  destruct H; unfold draggedItem in *;
  repeat match goal with
         | E : _ !! WorkspaceTreeDataProvider.dropMimeType = _ |- _ =>
             rewrite E in *; clear E
         end;
  simpl in *; simplify_eq; simpl in *;
  try lia; try congruence; try tauto; try (intuition congruence).

(** Every run of [handleDrop] is of one of two kinds: all checks pass and
    the trace grows by [acceptedEvents], or the trace grows by quiet events
    only. *)
Lemma handleDrop_cases (target : option (WorkspaceTreeItem Element))
  (sources : gmap string (list Element)) (r : Task.Run Element unit) :
  (exists onto dragged projectUri projectProvider move,
     DropAccepted projectFileUri _workspaceService target sources
       onto dragged projectUri projectProvider move
     /\ snd (WorkspaceTreeDataProvider.handleDrop projectFileUri constants
               _workspaceService target sources r)
        = {| Task.trace :=
               Task.trace r
               ++ acceptedEvents _workspaceService onto dragged projectUri projectProvider move;
             Task.locals := tt |})
  \/ (exists events,
        snd (WorkspaceTreeDataProvider.handleDrop projectFileUri constants
               _workspaceService target sources r)
        = {| Task.trace := Task.trace r ++ events; Task.locals := tt |}
        /\ Forall quiet events
        /\ (DropRefused projectFileUri _workspaceService target sources ->
            fst (WorkspaceTreeDataProvider.handleDrop projectFileUri constants
                   _workspaceService target sources r) = Returns tt)).
Proof.
  destruct r as [tr []].
  destruct target as [onto|]; [|right].
  2:{ exists []. drop_run. rewrite app_nil_r. repeat split; constructor. }
  destruct (sources !! WorkspaceTreeDataProvider.dropMimeType) as [value|] eqn:Hvalue.
  2:{ right. exists []. drop_run. rewrite Hvalue. cbn. rewrite app_nil_r.
      repeat split; constructor. }
  destruct value as [|dragged more].
  { right. exists []. drop_run. rewrite Hvalue. cbn. rewrite app_nil_r.
    split; [reflexivity|]. split; [constructor|].
    intros H. refute_refused H. }
  destruct more as [|second more].
  2:{ right. exists [ShowErrorMessage (onlyMovingOneFileIsSupported constants)].
      drop_run. rewrite Hvalue. cbn.
      repeat split; repeat constructor. }
  destruct (projectFileUri dragged) as [projectUri|] eqn:Huri.
  2:{ right. exists []. drop_run. rewrite Hvalue. cbn. rewrite Huri, app_nil_r.
      repeat split; constructor. }
  destruct (IWorkspaceService.getProjectProvider _workspaceService projectUri)
    as [[projectProvider|]|e] eqn:Hprovider.
  2:{ right. exists [GetProjectProvider projectUri].
      drop_run. rewrite Hvalue. cbn. rewrite Huri. cbn. rewrite Hprovider.
      repeat split; repeat constructor. }
  2:{ right. exists [GetProjectProvider projectUri].
      drop_run. rewrite Hvalue. cbn. rewrite Huri. cbn. rewrite Hprovider.
      split; [reflexivity|]. split; [repeat constructor|].
      intros H. refute_refused H. }
  destruct (IProjectProvider.supportsDragAndDrop projectProvider)
    as [[|]|] eqn:Hsupports;
    destruct (IProjectProvider.moveFile projectProvider) as [move|] eqn:Hmove.
  1:{ left. exists onto, dragged, projectUri, projectProvider, move.
      split; [constructor; auto|].
      drop_run. rewrite Hvalue. cbn. rewrite Huri. cbn.
      rewrite Hprovider, Hsupports, Hmove. cbn.
      unfold acceptedEvents.
      destruct (move projectUri (Some dragged) onto) as [[]|e]; cbn.
      - destruct (IWorkspaceService.getProjectsInWorkspace _workspaceService
                    None true); cbn; rewrite <- ?app_assoc; reflexivity.
      - rewrite <- ?app_assoc; reflexivity. }
  all: right;
    exists [GetProjectProvider projectUri;
            ShowErrorMessage (dragAndDropNotSupported constants)];
    drop_run; rewrite Hvalue; cbn; rewrite Huri; cbn;
    rewrite Hprovider, Hsupports, ?Hmove; cbn; rewrite <- ?app_assoc;
    repeat split; repeat constructor.
Qed.

Lemma accepted_not_refused (target : option (WorkspaceTreeItem Element))
  (sources : gmap string (list Element))
  (onto : WorkspaceTreeItem Element) (dragged : Element) (projectUri : Uri)
  (projectProvider : IProjectProvider.t Element)
  (move : Uri -> option Element -> WorkspaceTreeItem Element -> Outcome unit) :
  DropAccepted projectFileUri _workspaceService target sources
    onto dragged projectUri projectProvider move ->
  ~ DropRefused projectFileUri _workspaceService target sources.
Proof.
  intros [Htarget Hsingle Huri Hprovider Hsupported Hmove] Hrefused.
  refute_refused Hrefused.
Qed.

(** C9. [handleDrop] on its failure paths: when the target is [undefined],
    or more than one element is dragged, or the dragged element has no
    [projectFileUri], or its project has no provider, or the provider does
    not support drag and drop or has no [moveFile], the call returns and
    the trace holds neither a [moveFile] call nor any part of a refresh.
    Conversely a [moveFile] call or a refresh is in the trace only when
    every check has passed, and then the trace is the provider lookup, the
    move, and after it the refresh. *)
Theorem handleDrop_moves_only_when_accepted
  (target : option (WorkspaceTreeItem Element))
  (sources : gmap string (list Element)) (r : Task.Run Element unit) :
  exists events,
    snd (WorkspaceTreeDataProvider.handleDrop projectFileUri constants
           _workspaceService target sources r)
    = {| Task.trace := Task.trace r ++ events; Task.locals := tt |}
    /\ (DropRefused projectFileUri _workspaceService target sources ->
        fst (WorkspaceTreeDataProvider.handleDrop projectFileUri constants
               _workspaceService target sources r) = Returns tt
        /\ Forall quiet events)
    /\ (Exists (fun ev => isMoveFile ev = true \/ isRefreshEvent ev = true) events ->
        exists onto dragged projectUri projectProvider move,
          DropAccepted projectFileUri _workspaceService target sources
            onto dragged projectUri projectProvider move
          /\ events
             = acceptedEvents _workspaceService onto dragged projectUri
                 projectProvider move).
Proof.
  destruct (handleDrop_cases target sources r)
    as [(onto & dragged & projectUri & projectProvider & move & Haccepted & Hrun)
       |(events & Hrun & Hquiet & Hreturns)].
  - exists (acceptedEvents _workspaceService onto dragged projectUri
              projectProvider move).
    split; [exact Hrun|]. split.
    + intros Hrefused.
      destruct (accepted_not_refused _ _ _ _ _ _ _ Haccepted Hrefused).
    + intros _. exists onto, dragged, projectUri, projectProvider, move. auto.
  - exists events. split; [exact Hrun|]. split.
    + intros Hrefused. split; [apply Hreturns; exact Hrefused|exact Hquiet].
    + intros Hloud. exfalso.
      apply List.Exists_exists in Hloud as (ev & Hin & Hev).
      rewrite List.Forall_forall in Hquiet.
      destruct (Hquiet ev Hin) as [Hmove Hrefresh].
      destruct Hev; congruence.
Qed.

End WorkspaceTheorems.

(** ** The theorems on the sample workspace *)

Lemma children_carry_parent_provider_witness :
  Forall (fun item => treeDataProvider item = Sample.sqlTree)
    [Sample.node "users.sql"; Sample.node "orders.sql"]
  /\ fst (WorkspaceTreeDataProvider.getChildren Sample.extname Sample.constants
            Sample.service (Some (Sample.node "views.sql")) Sample.start)
     = Returns [].
Proof.
  split.
  - apply (proj1 (children_carry_parent_provider Sample.extname Sample.constants
                    Sample.service (Sample.node "tables.sql") Sample.start)
             _ {| Task.trace :=
                    [GetChildren Sample.sqlTree (Some "tables.sql")];
                  Task.locals := tt |}).
    reflexivity.
  - apply (proj1 (proj2 (proj2 (children_carry_parent_provider Sample.extname
                                  Sample.constants Sample.service
                                  (Sample.node "views.sql") Sample.start)))).
    left. reflexivity.
Defined.


Lemma handleDrop_moves_only_when_accepted_witness :
  (fst (WorkspaceTreeDataProvider.handleDrop Sample.projectFileUri Sample.constants
          Sample.service (Some (Sample.node "views.sql"))
          (Sample.dragging ["notes.txt"]) Sample.start)
   = Returns tt)
  /\ exists events,
       snd (WorkspaceTreeDataProvider.handleDrop Sample.projectFileUri
              Sample.constants Sample.service (Some (Sample.node "views.sql"))
              (Sample.dragging ["users.sql"]) Sample.start)
       = {| Task.trace := events; Task.locals := tt |}.
Proof.
  split.
  - destruct (handleDrop_moves_only_when_accepted Sample.projectFileUri
                Sample.constants Sample.service (Some (Sample.node "views.sql"))
                (Sample.dragging ["notes.txt"]) Sample.start)
      as (events & _ & Hrefused & _).
    apply Hrefused.
    apply (NoProjectProvider _ _ _ _ "notes.txt" Sample.strayProject);
      reflexivity.
  - destruct (handleDrop_moves_only_when_accepted Sample.projectFileUri
                Sample.constants Sample.service (Some (Sample.node "views.sql"))
                (Sample.dragging ["users.sql"]) Sample.start)
      as (events & Hrun & _ & _).
    exists events. exact Hrun.
Defined.

(* ===================================================================== *)
(** * Part VII. Long text viewer: theorems                                *)
(* ===================================================================== *)

(** C10. In every state of a [LongTextViewer], [isValueChanged()] is false,
    [serializeValue()] is the empty string and [validate()] is
    [{valid: true, msg: null}]; in particular this holds in every state
    reached from a fresh viewer by any sequence of calls. *)
Theorem viewer_never_reports_a_change (viewer : LongTextViewer.t) :
  LongTextViewer.isValueChanged viewer = false
  /\ LongTextViewer.serializeValue viewer = ""
  /\ LongTextViewer.validate viewer
     = {| LongTextViewer.valid := true; LongTextViewer.msg := None |}
  /\ forall calls,
       let reached := fold_left LongTextViewer.perform calls viewer in
       LongTextViewer.isValueChanged reached = false
       /\ LongTextViewer.serializeValue reached = ""
       /\ LongTextViewer.validate reached
          = {| LongTextViewer.valid := true; LongTextViewer.msg := None |}.
Proof.
  repeat split.
Qed.

(* ===================================================================== *)
(** * Part VIII. Further properties of the workspace tree data provider   *)
(* ===================================================================== *)

Section WorkspaceEffects.

Context {Element : Type}.

Variable extname : string -> string.
Variable projectFileUri : Element -> option Uri.
Variable constants : Constants.
Variable _workspaceService : IWorkspaceService.t Element.

(** ** incrementProjectTypeMetric *)

(** X1. [incrementProjectTypeMetric] raises the count under the project's
    extension by one, starting from 0 when the extension was not counted
    yet, and leaves the count of every other extension as it was. *)
Theorem incrementProjectTypeMetric_lookup (metric : gmap string Z)
  (project : Uri) (ext : string) :
  WorkspaceTreeDataProvider.incrementProjectTypeMetric extname metric project !! ext
  = if decide (ext = extname (fsPath project))
    then Some (default 0 (metric !! ext) + 1)
    else metric !! ext.
Proof.
  unfold WorkspaceTreeDataProvider.incrementProjectTypeMetric.
  case_decide as Hext.
  - subst ext. rewrite lookup_insert_eq.
    destruct (metric !! extname (fsPath project)) as [n|] eqn:Hold.
    + rewrite Hold. reflexivity.
    + rewrite lookup_insert_eq. reflexivity.
  - rewrite lookup_insert_ne by congruence.
    destruct (metric !! extname (fsPath project)); [reflexivity|].
    rewrite lookup_insert_ne by congruence. reflexivity.
Qed.

(** Counting from any metric: the projects counted under [ext] are added to
    what was there. *)
Lemma fold_increment_lookup (projects : list Uri) :
  forall (metric : gmap string Z) (ext : string),
    fold_left
      (fun metric project =>
         if lookedUp _workspaceService project
         then WorkspaceTreeDataProvider.incrementProjectTypeMetric extname metric project
         else metric)
      projects metric !! ext
    = match length (List.filter (countedAs extname _workspaceService ext) projects) with
      | O => metric !! ext
      | S n => Some (default 0 (metric !! ext) + Z.of_nat (S n))
      end.
Proof.
  induction projects as [|project rest IH]; intros metric ext; [reflexivity|].
  cbn [fold_left List.filter]. rewrite IH. clear IH.
  unfold countedAs at 2.
  destruct (lookedUp _workspaceService project); cbn [andb].
  - rewrite incrementProjectTypeMetric_lookup.
    destruct (String.eqb_spec (extname (fsPath project)) ext) as [Heq|Hne].
    + subst ext. rewrite decide_True by reflexivity. cbn [length default].
      destruct (length (List.filter _ rest)); f_equal; unfold id; lia.
    + rewrite decide_False by congruence. reflexivity.
  - reflexivity.
Qed.

(** The type metric built by the project loop holds, under each extension,
    the number of projects with that extension whose provider lookup
    returned; an extension no such project has is absent. *)
Lemma typeCounts_lookup (projects : list Uri) (ext : string) :
  typeCounts extname _workspaceService projects !! ext
  = match length (List.filter (countedAs extname _workspaceService ext) projects) with
    | O => None
    | S n => Some (Z.of_nat (S n))
    end.
Proof.
  unfold typeCounts. rewrite fold_increment_lookup, lookup_empty.
  destruct (length _); [reflexivity|]. cbn [default]. f_equal.
Qed.

(** ** The effects of getChildren on the root *)

Ltac run_loop_body :=
  unfold WorkspaceTreeDataProvider.loadProjectGuarded,
    WorkspaceTreeDataProvider.loadProject, Task.tryCatch, Task.bind, Task.await,
    Task.modify, Task.when, Task.emit, Task.ret,
    WorkspaceTreeDataProvider.readMessage, Task.throw;
  cbn [Task.trace Task.locals].

(** One turn of the loop, with everything it leaves behind. *)
Lemma loadProjectGuarded_exact (project : Uri)
  (r : Task.Run Element WorkspaceTreeDataProvider.Locals) :
  WorkspaceTreeDataProvider.loadProjectGuarded extname _workspaceService project r
  = (turnOutcome _workspaceService project,
     {| Task.trace := Task.trace r ++ projectEvents _workspaceService project;
        Task.locals :=
          {| WorkspaceTreeDataProvider.unknownProjects :=
               WorkspaceTreeDataProvider.unknownProjects (Task.locals r)
               ++ (if providerUnknown _workspaceService project
                   then [path project] else []);
             WorkspaceTreeDataProvider.treeItems :=
               WorkspaceTreeDataProvider.treeItems (Task.locals r)
               ++ projectChildren _workspaceService project;
             WorkspaceTreeDataProvider.typeMetric :=
               (if lookedUp _workspaceService project
                then WorkspaceTreeDataProvider.incrementProjectTypeMetric extname
                       (WorkspaceTreeDataProvider.typeMetric (Task.locals r)) project
                else WorkspaceTreeDataProvider.typeMetric (Task.locals r));
             WorkspaceTreeDataProvider.errorCount :=
               WorkspaceTreeDataProvider.errorCount (Task.locals r)
               + (if providerThrows _workspaceService project then 1 else 0) |} |}).
Proof.
  unfold turnOutcome, abortsLoop, loadError, handlerError, providerUnknown,
    providerThrows, projectChildren, lookedUp, projectEvents, handlerEvents.
  run_loop_body.
  destruct (IWorkspaceService.getProjectProvider _workspaceService project)
    as [[projectProvider|]|e]; cbn.
  - destruct (IProjectProvider.getProjectTreeDataProvider projectProvider project)
      as [provider|e]; cbn.
    + destruct (TreeDataProvider.getChildren provider None) as [[children|]|e];
        destruct (TreeDataProvider.onDidChangeTreeData provider); cbn;
        try destruct e; cbn;
        rewrite <- ?app_assoc, ?app_nil_r, ?Z.add_0_r; reflexivity.
    + destruct e; cbn; rewrite <- ?app_assoc, ?app_nil_r; reflexivity.
  - rewrite ?app_nil_r, ?Z.add_0_r. reflexivity.
  - destruct e; cbn; rewrite <- ?app_assoc, ?app_nil_r;
      destruct r as [tr l]; reflexivity.
Qed.

(** The whole loop: it runs over the processed projects, and ends with the
    error of the handler when one of them made the handler throw. *)
Lemma forOf_projects_exact (projects : list Uri) :
  forall r : Task.Run Element WorkspaceTreeDataProvider.Locals,
    Task.forOf projects
      (WorkspaceTreeDataProvider.loadProjectGuarded extname _workspaceService) r
    = (match loopError _workspaceService projects with
       | Some err => Throws err
       | None => Returns tt
       end,
       {| Task.trace :=
            Task.trace r
            ++ flat_map (projectEvents _workspaceService)
                 (processed _workspaceService projects);
          Task.locals :=
            {| WorkspaceTreeDataProvider.unknownProjects :=
                 WorkspaceTreeDataProvider.unknownProjects (Task.locals r)
                 ++ unknownPaths _workspaceService
                      (processed _workspaceService projects);
               WorkspaceTreeDataProvider.treeItems :=
                 WorkspaceTreeDataProvider.treeItems (Task.locals r)
                 ++ flat_map (projectChildren _workspaceService)
                      (processed _workspaceService projects);
               WorkspaceTreeDataProvider.typeMetric :=
                 countTypes extname _workspaceService
                   (WorkspaceTreeDataProvider.typeMetric (Task.locals r))
                   (processed _workspaceService projects);
               WorkspaceTreeDataProvider.errorCount :=
                 WorkspaceTreeDataProvider.errorCount (Task.locals r)
                 + Z.of_nat
                     (length (List.filter (providerThrows _workspaceService)
                                (processed _workspaceService projects))) |} |}).
Proof.
  induction projects as [|project rest IH]; intros r.
  - cbn. rewrite !app_nil_r, Z.add_0_r. destruct r as [tr []]; reflexivity.
  - cbn [Task.forOf]. unfold Task.bind at 1.
    rewrite loadProjectGuarded_exact. unfold turnOutcome.
    cbn [processed loopError].
    destruct (abortsLoop _workspaceService project) as [err|].
    + unfold unknownPaths, countTypes.
      cbn [flat_map fold_left List.filter map].
      destruct (providerUnknown _workspaceService project);
        destruct (providerThrows _workspaceService project);
        cbn [map length]; rewrite ?app_nil_r; reflexivity.
    + rewrite IH.
      cbn [Task.trace Task.locals WorkspaceTreeDataProvider.unknownProjects
        WorkspaceTreeDataProvider.treeItems WorkspaceTreeDataProvider.typeMetric
        WorkspaceTreeDataProvider.errorCount flat_map].
      unfold unknownPaths, countTypes. cbn [fold_left List.filter].
      destruct (providerUnknown _workspaceService project);
        destruct (providerThrows _workspaceService project);
        cbn [map length]; rewrite <- ?app_assoc, ?app_nil_r, <- ?Z.add_assoc;
        cbn [app]; repeat f_equal; lia.
Qed.

(** When no project makes the handler throw, the loop gets to all of them. *)
Lemma processed_all (projects : list Uri) :
  loopError _workspaceService projects = None ->
  processed _workspaceService projects = projects.
Proof.
  induction projects as [|project rest IH]; [reflexivity|].
  cbn [loopError processed].
  destruct (abortsLoop _workspaceService project); [discriminate|].
  intros Hrest. rewrite (IH Hrest). reflexivity.
Qed.

(** The run of [getChildren] on the root once the projects are listed. *)
Lemma root_children_run (projects : list Uri) (r : Task.Run Element unit) :
  IWorkspaceService.getProjectsInWorkspace _workspaceService None false
  = Returns projects ->
  WorkspaceTreeDataProvider.getChildren extname constants _workspaceService None r
  = match loopError _workspaceService projects with
    | Some err =>
        (Throws err,
         {| Task.trace :=
              Task.trace r ++ beforeLoop projects
              ++ flat_map (projectEvents _workspaceService)
                   (processed _workspaceService projects);
            Task.locals := tt |})
    | None =>
        (Returns (flat_map (projectChildren _workspaceService) projects),
         {| Task.trace :=
              Task.trace r ++ beforeLoop projects
              ++ flat_map (projectEvents _workspaceService) projects
              ++ afterLoop extname constants _workspaceService projects;
            Task.locals := tt |})
    end.
Proof.
  intros Hprojects.
  unfold WorkspaceTreeDataProvider.getChildren, Task.block.
  unfold Task.bind at 1 2 3. unfold Task.await at 1. unfold Task.emit at 1 2.
  cbn [Task.trace Task.locals]. rewrite Hprojects.
  unfold Task.bind at 1. rewrite forOf_projects_exact.
  assert (Hempty : Nat.eqb (length projects) 0 = bool_decide (projects = [])).
  { destruct projects; reflexivity. }
  rewrite Hempty. unfold beforeLoop.
  destruct (loopError _workspaceService projects) as [err|] eqn:Hloop.
  { cbn [Task.trace Task.locals]. rewrite <- ?app_assoc. reflexivity. }
  rewrite (processed_all projects Hloop).
  unfold Task.bind, Task.getLocals, Task.when, Task.emit, Task.ret.
  cbn [Task.trace Task.locals WorkspaceTreeDataProvider.unknownProjects
    WorkspaceTreeDataProvider.treeItems WorkspaceTreeDataProvider.typeMetric
    WorkspaceTreeDataProvider.errorCount WorkspaceTreeDataProvider.initialLocals app].
  unfold countTypes. fold (typeCounts extname _workspaceService projects).
  assert (Hfailed :
    (0 <? 0 + Z.of_nat
       (length (List.filter (providerThrows _workspaceService) projects)))
    = existsb (providerThrows _workspaceService) projects).
  { clear. induction projects as [|project rest IH]; [reflexivity|].
    cbn [List.filter existsb].
    destruct (providerThrows _workspaceService project); cbn [orb length].
    - apply Z.ltb_lt. lia.
    - exact IH. }
  assert (Hunknown :
    (0 <? Z.of_nat (length (unknownPaths _workspaceService projects)))
    = existsb (providerUnknown _workspaceService) projects).
  { clear. unfold unknownPaths. rewrite length_map.
    induction projects as [|project rest IH]; [reflexivity|].
    cbn [List.filter existsb].
    destruct (providerUnknown _workspaceService project); cbn [orb length].
    - apply Z.ltb_lt. lia.
    - exact IH. }
  rewrite Hfailed. unfold afterLoop.
  destruct (existsb (providerThrows _workspaceService) projects);
    cbn [Task.trace Task.locals WorkspaceTreeDataProvider.unknownProjects
      WorkspaceTreeDataProvider.treeItems WorkspaceTreeDataProvider.typeMetric];
    fold (handledMetrics _workspaceService projects);
    rewrite Hunknown;
    destruct (existsb (providerUnknown _workspaceService) projects);
    cbn [Task.trace Task.locals snd];
    rewrite <- ?app_assoc; cbn [app]; rewrite ?app_nil_r; reflexivity.
Qed.

(** X3. Once the projects are listed, [getChildren] on the root does, in
    this order and nothing else: the log line, the listing, the
    [setContext] command (true exactly for an empty workspace), then the
    calls of each project in project order.  When no project throws
    [undefined] or [null], the loop is followed by the
    [ProjectsFailedToLoad] message if and only if some project threw, the
    two telemetry events, and the [UnknownProjectsError] message if and
    only if some project has no provider.  When a project throws
    [undefined] or [null], the handler throws while reading [e.message]:
    [getChildren] throws that [TypeError] right after the calls of that
    project, and nothing of the rest happens. *)
Theorem root_children_effects (projects : list Uri) (r : Task.Run Element unit) :
  IWorkspaceService.getProjectsInWorkspace _workspaceService None false
  = Returns projects ->
  (loopError _workspaceService projects = None ->
   snd (WorkspaceTreeDataProvider.getChildren extname constants _workspaceService
          None r)
   = {| Task.trace :=
          Task.trace r
          ++ [LoggerLog "Calling getProjectsInWorkspace() from getChildren()";
              GetProjectsInWorkspace None false;
              ExecuteCommand "setContext" "isProjectsViewEmpty"
                (bool_decide (projects = []))]
          ++ flat_map (projectEvents _workspaceService) projects
          ++ (if existsb (providerThrows _workspaceService) projects
              then [ShowErrorMessage (ProjectsFailedToLoad constants)] else [])
          ++ [SendMetricsEvent (typeCounts extname _workspaceService projects)
                "OpenWorkspaceProjectTypes";
              SendMetricsEvent (handledMetrics _workspaceService projects)
                "OpenWorkspaceProjectsHandled"]
          ++ (if existsb (providerUnknown _workspaceService) projects
              then [ShowErrorMessage
                      (UnknownProjectsError constants
                         (unknownPaths _workspaceService projects))]
              else []);
        Task.locals := tt |})
  /\ (forall err,
        loopError _workspaceService projects = Some err ->
        WorkspaceTreeDataProvider.getChildren extname constants _workspaceService
          None r
        = (Throws err,
           {| Task.trace :=
                Task.trace r
                ++ [LoggerLog "Calling getProjectsInWorkspace() from getChildren()";
                    GetProjectsInWorkspace None false;
                    ExecuteCommand "setContext" "isProjectsViewEmpty"
                      (bool_decide (projects = []))]
                ++ flat_map (projectEvents _workspaceService)
                     (processed _workspaceService projects);
              Task.locals := tt |})).
Proof.
  intros Hprojects. rewrite (root_children_run projects r Hprojects).
  split.
  - intros ->. reflexivity.
  - intros err ->. reflexivity.
Qed.

(** X4. When the projects cannot be listed, [getChildren] on the root
    throws the same error right after the log line and the listing call:
    no context is set, no provider is looked up, no telemetry is sent and
    no message is shown. *)
Theorem root_children_listing_failure (e : JsError) (r : Task.Run Element unit) :
  IWorkspaceService.getProjectsInWorkspace _workspaceService None false = Throws e ->
  WorkspaceTreeDataProvider.getChildren extname constants _workspaceService None r
  = (Throws e,
     {| Task.trace :=
          Task.trace r
          ++ [LoggerLog "Calling getProjectsInWorkspace() from getChildren()";
              GetProjectsInWorkspace None false];
        Task.locals := tt |}).
Proof.
  intros Hlisting.
  unfold WorkspaceTreeDataProvider.getChildren.
  unfold Task.bind at 1 2. unfold Task.await at 1. unfold Task.emit at 1.
  cbn [Task.trace Task.locals]. rewrite Hlisting.
  rewrite <- app_assoc. destruct r as [tr []]; reflexivity.
Qed.

(** The listeners one project registers. *)
Lemma projectEvents_subscriptions (project : Uri) :
  length (List.filter isSubscription (projectEvents _workspaceService project))
  = if subscribes _workspaceService project then 1%nat else 0%nat.
Proof.
  unfold projectEvents, subscribes, handlerEvents.
  destruct (IWorkspaceService.getProjectProvider _workspaceService project)
    as [[projectProvider|]|e]; try reflexivity; [|destruct e; reflexivity].
  destruct (IProjectProvider.getProjectTreeDataProvider projectProvider project)
    as [provider|e]; try reflexivity; [|destruct e; reflexivity].
  destruct (TreeDataProvider.onDidChangeTreeData provider);
    destruct (TreeDataProvider.getChildren provider None) as [children|e];
    try destruct e; reflexivity.
Qed.

(** X5. Every call of [getChildren] on the root registers one new
    [onDidChangeTreeData] listener for each project the loop gets to whose
    tree data provider was obtained and has that event: nothing is
    remembered from earlier calls, so the listeners add up from one call to
    the next. *)
Theorem root_children_subscriptions (projects : list Uri)
  (r : Task.Run Element unit) :
  IWorkspaceService.getProjectsInWorkspace _workspaceService None false
  = Returns projects ->
  length
    (List.filter isSubscription
       (Task.trace
          (snd (WorkspaceTreeDataProvider.getChildren extname constants
                  _workspaceService None r))))
  = (length (List.filter isSubscription (Task.trace r))
     + length (List.filter (subscribes _workspaceService)
                 (processed _workspaceService projects)))%nat.
Proof.
  intros Hprojects. rewrite (root_children_run projects r Hprojects).
  assert (Hloop : forall ps,
    length (List.filter isSubscription
              (flat_map (projectEvents _workspaceService) ps))
    = length (List.filter (subscribes _workspaceService) ps)).
  { clear. induction ps as [|project rest IH]; [reflexivity|].
    cbn [flat_map List.filter]. rewrite List.filter_app, length_app, IH.
    rewrite projectEvents_subscriptions.
    destruct (subscribes _workspaceService project); reflexivity. }
  destruct (loopError _workspaceService projects) as [err|] eqn:Herr;
    cbn [snd Task.trace]; rewrite ?(processed_all projects Herr);
    unfold afterLoop; rewrite !List.filter_app, !length_app, Hloop.
  - cbn. lia.
  - destruct (existsb (providerThrows _workspaceService) projects);
      destruct (existsb (providerUnknown _workspaceService) projects);
      cbn; lia.
Qed.

(** The two numbers of the [OpenWorkspaceProjectsHandled] metrics. *)
Lemma handledMetrics_counts (projects : list Uri) :
  handledMetrics _workspaceService projects !! "unhandled"
  = Some (Z.of_nat (length (List.filter (providerUnknown _workspaceService) projects)))
  /\ handledMetrics _workspaceService projects !! "handled"
     = Some (Z.of_nat
               (length (List.filter
                          (fun project =>
                             negb (providerUnknown _workspaceService project))
                          projects))).
Proof.
  unfold handledMetrics, unknownPaths. rewrite length_map.
  assert (Hsplit :
    Z.of_nat (length projects)
    - Z.of_nat (length (List.filter (providerUnknown _workspaceService) projects))
    = Z.of_nat
        (length (List.filter
                   (fun project => negb (providerUnknown _workspaceService project))
                   projects))).
  { induction projects as [|project rest IH]; [reflexivity|].
    cbn [List.filter length].
    destruct (providerUnknown _workspaceService project); cbn [negb length]; lia. }
  split.
  - rewrite lookup_insert_ne by discriminate. apply lookup_singleton_eq.
  - rewrite lookup_insert_eq. f_equal. exact Hsplit.
Qed.

(** X2. The telemetry of [getChildren] on the root, when no project throws
    [undefined] or [null].  The [OpenWorkspaceProjectTypes] event holds,
    under each extension, the number of projects with that extension whose
    provider lookup returned (a project whose lookup threw is not counted,
    one that failed later is); an extension without such a project is
    absent. *)
Theorem root_children_type_telemetry (projects : list Uri)
  (r : Task.Run Element unit) :
  IWorkspaceService.getProjectsInWorkspace _workspaceService None false
  = Returns projects ->
  loopError _workspaceService projects = None ->
  exists metrics,
    In (SendMetricsEvent metrics "OpenWorkspaceProjectTypes")
      (Task.trace
         (snd (WorkspaceTreeDataProvider.getChildren extname constants
                 _workspaceService None r)))
    /\ forall ext,
         metrics !! ext
         = match length (List.filter (countedAs extname _workspaceService ext)
                           projects) with
           | O => None
           | S n => Some (Z.of_nat (S n))
           end.
Proof.
  intros Hprojects Hloop. exists (typeCounts extname _workspaceService projects).
  split; [|apply typeCounts_lookup].
  rewrite (root_children_run projects r Hprojects), Hloop.
  cbn [snd Task.trace]. unfold afterLoop.
  apply in_or_app. right. apply in_or_app. right. apply in_or_app. right.
  apply in_or_app. right. apply in_or_app. left. left. reflexivity.
Qed.

(** X6. In the [OpenWorkspaceProjectsHandled] event of [getChildren] on
    the root, sent when no project throws [undefined] or [null],
    [unhandled] is the number of projects without a provider and [handled]
    is the number of all other projects, those that failed to load
    included. *)
Theorem root_children_handled_telemetry (projects : list Uri)
  (r : Task.Run Element unit) :
  IWorkspaceService.getProjectsInWorkspace _workspaceService None false
  = Returns projects ->
  loopError _workspaceService projects = None ->
  exists metrics,
    In (SendMetricsEvent metrics "OpenWorkspaceProjectsHandled")
      (Task.trace
         (snd (WorkspaceTreeDataProvider.getChildren extname constants
                 _workspaceService None r)))
    /\ metrics !! "unhandled"
       = Some (Z.of_nat
                 (length (List.filter (providerUnknown _workspaceService) projects)))
    /\ metrics !! "handled"
       = Some (Z.of_nat
                 (length (List.filter
                            (fun project =>
                               negb (providerUnknown _workspaceService project))
                            projects))).
Proof.
  intros Hprojects Hloop. exists (handledMetrics _workspaceService projects).
  split; [|apply handledMetrics_counts].
  rewrite (root_children_run projects r Hprojects), Hloop.
  cbn [snd Task.trace]. unfold afterLoop.
  apply in_or_app. right. apply in_or_app. right. apply in_or_app. right.
  apply in_or_app. right. apply in_or_app. left. right. left. reflexivity.
Qed.


(** ** Nothing is kept from one call to the next *)



(** ** The effects of getChildren on a node *)

(** X7. For a node, [getChildren] makes exactly one call, to the
    [getChildren] of the node's own provider with the node's element, and
    never touches the workspace service; when that call throws,
    [getChildren] throws the same error. *)
Theorem node_children_effects (node : WorkspaceTreeItem Element)
  (r : Task.Run Element unit) :
  snd (WorkspaceTreeDataProvider.getChildren extname constants _workspaceService
         (Some node) r)
  = {| Task.trace :=
         Task.trace r
         ++ [GetChildren (treeDataProvider node) (Some (element node))];
       Task.locals := tt |}
  /\ (forall e,
        TreeDataProvider.getChildren (treeDataProvider node) (Some (element node))
        = Throws e ->
        fst (WorkspaceTreeDataProvider.getChildren extname constants
               _workspaceService (Some node) r) = Throws e).
Proof.
  unfold WorkspaceTreeDataProvider.getChildren, Task.bind, Task.await, Task.ret.
  destruct r as [tr []]. cbn [Task.trace Task.locals].
  split.
  - destruct (TreeDataProvider.getChildren (treeDataProvider node)
                (Some (element node))) as [children|e]; reflexivity.
  - intros e ->. reflexivity.
Qed.

(** ** The effects of handleDrop *)

Ltac run_drop :=
  unfold WorkspaceTreeDataProvider.handleDrop, Task.bind, Task.await, Task.emit,
    Task.ret, Task.throw, Task.void;
  cbn [Task.trace Task.locals fst snd].

(** X8. What the user sees of a refused drop.  Without a target, without
    a transfer item for the tree's mime type, when the dragged element has
    no project file, or when its project has no provider, [handleDrop]
    returns without any message (in the last case after looking the
    provider up).  Several dragged elements give the
    [onlyMovingOneFileIsSupported] message before any lookup; a provider
    without drag-and-drop support or without [moveFile] gives the
    [dragAndDropNotSupported] message after the lookup. *)
Theorem handleDrop_refusal_effects (onto : WorkspaceTreeItem Element)
  (sources : gmap string (list Element)) (r : Task.Run Element unit) :
  WorkspaceTreeDataProvider.handleDrop projectFileUri constants _workspaceService
    None sources r = (Returns tt, r)
  /\ (sources !! WorkspaceTreeDataProvider.dropMimeType = None ->
      WorkspaceTreeDataProvider.handleDrop projectFileUri constants
        _workspaceService (Some onto) sources r = (Returns tt, r))
  /\ (forall value,
        sources !! WorkspaceTreeDataProvider.dropMimeType = Some value ->
        (1 < length value)%nat ->
        WorkspaceTreeDataProvider.handleDrop projectFileUri constants
          _workspaceService (Some onto) sources r
        = (Returns tt,
           {| Task.trace :=
                Task.trace r
                ++ [ShowErrorMessage (onlyMovingOneFileIsSupported constants)];
              Task.locals := tt |}))
  /\ (forall dragged,
        sources !! WorkspaceTreeDataProvider.dropMimeType = Some [dragged] ->
        projectFileUri dragged = None ->
        WorkspaceTreeDataProvider.handleDrop projectFileUri constants
          _workspaceService (Some onto) sources r = (Returns tt, r))
  /\ (forall dragged projectUri,
        sources !! WorkspaceTreeDataProvider.dropMimeType = Some [dragged] ->
        projectFileUri dragged = Some projectUri ->
        IWorkspaceService.getProjectProvider _workspaceService projectUri
        = Returns None ->
        WorkspaceTreeDataProvider.handleDrop projectFileUri constants
          _workspaceService (Some onto) sources r
        = (Returns tt,
           {| Task.trace := Task.trace r ++ [GetProjectProvider projectUri];
              Task.locals := tt |}))
  /\ (forall dragged projectUri projectProvider,
        sources !! WorkspaceTreeDataProvider.dropMimeType = Some [dragged] ->
        projectFileUri dragged = Some projectUri ->
        IWorkspaceService.getProjectProvider _workspaceService projectUri
        = Returns (Some projectProvider) ->
        IProjectProvider.supportsDragAndDrop projectProvider <> Some true
        \/ IProjectProvider.moveFile projectProvider = None ->
        WorkspaceTreeDataProvider.handleDrop projectFileUri constants
          _workspaceService (Some onto) sources r
        = (Returns tt,
           {| Task.trace :=
                Task.trace r
                ++ [GetProjectProvider projectUri;
                    ShowErrorMessage (dragAndDropNotSupported constants)];
              Task.locals := tt |})).
Proof.
  destruct r as [tr []].
  split; [reflexivity|]. split; [|split; [|split; [|split]]].
  - intros Hnone. run_drop. rewrite Hnone. reflexivity.
  - intros value Hvalue Hmany. run_drop. rewrite Hvalue.
    apply Nat.ltb_lt in Hmany. rewrite Hmany. reflexivity.
  - intros dragged Hvalue Huri. run_drop. rewrite Hvalue. cbn. rewrite Huri.
    reflexivity.
  - intros dragged projectUri Hvalue Huri Hprovider.
    run_drop. rewrite Hvalue. cbn. rewrite Huri. cbn. rewrite Hprovider.
    reflexivity.
  - intros dragged projectUri projectProvider Hvalue Huri Hprovider Hno.
    run_drop. rewrite Hvalue. cbn. rewrite Huri. cbn. rewrite Hprovider.
    destruct (IProjectProvider.supportsDragAndDrop projectProvider) as [[|]|];
      destruct (IProjectProvider.moveFile projectProvider) as [move|];
      cbn; rewrite <- ?app_assoc; try reflexivity.
    destruct Hno as [Hno|Hno]; congruence.
Qed.

(** X9. The three ways [handleDrop] throws.  An empty dragged list makes
    it throw the [TypeError] of reading [projectFileUri] of [undefined],
    before anything else happens; an error of the provider lookup is
    passed on, with no move; an error of [moveFile] is passed on, and then
    no refresh follows the move. *)
Theorem handleDrop_rejections (onto : WorkspaceTreeItem Element)
  (sources : gmap string (list Element)) (r : Task.Run Element unit) :
  (sources !! WorkspaceTreeDataProvider.dropMimeType = Some [] ->
   WorkspaceTreeDataProvider.handleDrop projectFileUri constants _workspaceService
     (Some onto) sources r
   = (Throws (WorkspaceTreeDataProvider.undefinedPropertyError "projectFileUri"), r))
  /\ (forall dragged projectUri e,
        sources !! WorkspaceTreeDataProvider.dropMimeType = Some [dragged] ->
        projectFileUri dragged = Some projectUri ->
        IWorkspaceService.getProjectProvider _workspaceService projectUri
        = Throws e ->
        WorkspaceTreeDataProvider.handleDrop projectFileUri constants
          _workspaceService (Some onto) sources r
        = (Throws e,
           {| Task.trace := Task.trace r ++ [GetProjectProvider projectUri];
              Task.locals := tt |}))
  /\ (forall dragged projectUri projectProvider move e,
        DropAccepted projectFileUri _workspaceService (Some onto) sources
          onto dragged projectUri projectProvider move ->
        move projectUri (Some dragged) onto = Throws e ->
        WorkspaceTreeDataProvider.handleDrop projectFileUri constants
          _workspaceService (Some onto) sources r
        = (Throws e,
           {| Task.trace :=
                Task.trace r
                ++ [GetProjectProvider projectUri;
                    MoveFile projectProvider projectUri (Some dragged) onto];
              Task.locals := tt |})).
Proof.
  destruct r as [tr []].
  split; [|split].
  - intros Hvalue. run_drop. rewrite Hvalue. reflexivity.
  - intros dragged projectUri e Hvalue Huri Hprovider.
    run_drop. rewrite Hvalue. cbn. rewrite Huri. cbn. rewrite Hprovider.
    reflexivity.
  - intros dragged projectUri projectProvider move e
      [_ Hvalue Huri Hprovider Hsupported Hmove] Hthrows.
    run_drop. rewrite Hvalue. cbn. rewrite Huri. cbn.
    rewrite Hprovider, Hsupported, Hmove. cbn. rewrite Hthrows.
    rewrite <- app_assoc. reflexivity.
Qed.

(** X10. When every check passes and [moveFile] returns, [handleDrop]
    returns normally whatever becomes of the refresh: what it leaves behind
    is what a call of [refresh] leaves behind after the lookup and the
    move, and an error of the reload is dropped. *)
Theorem handleDrop_refresh_detached (onto : WorkspaceTreeItem Element)
  (sources : gmap string (list Element)) (r : Task.Run Element unit)
  (dragged : Element) (projectUri : Uri)
  (projectProvider : IProjectProvider.t Element)
  (move : Uri -> option Element -> WorkspaceTreeItem Element -> Outcome unit) :
  DropAccepted projectFileUri _workspaceService (Some onto) sources
    onto dragged projectUri projectProvider move ->
  move projectUri (Some dragged) onto = Returns tt ->
  WorkspaceTreeDataProvider.handleDrop projectFileUri constants _workspaceService
    (Some onto) sources r
  = (Returns tt,
     snd (WorkspaceTreeDataProvider.refresh _workspaceService
            {| Task.trace :=
                 Task.trace r
                 ++ [GetProjectProvider projectUri;
                     MoveFile projectProvider projectUri (Some dragged) onto];
               Task.locals := tt |})).
Proof.
  intros [_ Hvalue Huri Hprovider Hsupported Hmove] Hmoved.
  destruct r as [tr []].
  unfold WorkspaceTreeDataProvider.handleDrop.
  rewrite Hvalue. cbn [length Nat.ltb Nat.leb].
  unfold Task.bind at 1. unfold Task.ret at 1. cbn [lookup]. cbn.
  rewrite Huri. unfold Task.bind at 1. unfold Task.await at 1.
  rewrite Hprovider, Hsupported, Hmove.
  unfold Task.bind at 1. unfold Task.await at 1. rewrite Hmoved.
  unfold Task.void. cbn [Task.trace Task.locals]. rewrite <- app_assoc.
  reflexivity.
Qed.

(** ** handleDrag, and a drag followed by a drop *)

(** A drag replaces what the transfer held under the tree's mime type by
    the elements of the dragged items, in order, and leaves every other
    mime type of the transfer alone. *)
Lemma handleDrag_lookup (items : list (WorkspaceTreeItem Element))
  (dataTransfer : gmap string (list Element)) (mimeType : string) :
  WorkspaceTreeDataProvider.handleDrag items dataTransfer !! mimeType
  = if decide (mimeType = WorkspaceTreeDataProvider.dropMimeType)
    then Some (map element items)
    else dataTransfer !! mimeType.
Proof.
  unfold WorkspaceTreeDataProvider.handleDrag.
  case_decide as Hmime.
  - subst. apply lookup_insert_eq.
  - apply lookup_insert_ne. congruence.
Qed.

(** X11. Dragging one item and dropping it where every check passes moves
    exactly that item's element: [moveFile] is called once, with the
    element's project file, the element and the drop target.  Dragging
    several items at once only gives the [onlyMovingOneFileIsSupported]
    message. *)
Theorem drag_then_drop (item : WorkspaceTreeItem Element)
  (others : list (WorkspaceTreeItem Element))
  (onto : WorkspaceTreeItem Element)
  (dataTransfer : gmap string (list Element)) (r : Task.Run Element unit) :
  (forall projectUri projectProvider move,
     projectFileUri (element item) = Some projectUri ->
     IWorkspaceService.getProjectProvider _workspaceService projectUri
     = Returns (Some projectProvider) ->
     IProjectProvider.supportsDragAndDrop projectProvider = Some true ->
     IProjectProvider.moveFile projectProvider = Some move ->
     Task.trace
       (snd (WorkspaceTreeDataProvider.handleDrop projectFileUri constants
               _workspaceService (Some onto)
               (WorkspaceTreeDataProvider.handleDrag [item] dataTransfer) r))
     = Task.trace r
       ++ acceptedEvents _workspaceService onto (element item) projectUri
            projectProvider move)
  /\ (others <> [] ->
      WorkspaceTreeDataProvider.handleDrop projectFileUri constants
        _workspaceService (Some onto)
        (WorkspaceTreeDataProvider.handleDrag (item :: others) dataTransfer) r
      = (Returns tt,
         {| Task.trace :=
              Task.trace r
              ++ [ShowErrorMessage (onlyMovingOneFileIsSupported constants)];
            Task.locals := tt |})).
Proof.
  split.
  - intros projectUri projectProvider move Huri Hprovider Hsupported Hmove.
    destruct r as [tr []]. run_drop.
    rewrite handleDrag_lookup, decide_True by reflexivity.
    cbn. rewrite Huri. cbn. rewrite Hprovider, Hsupported, Hmove. cbn.
    unfold acceptedEvents.
    destruct (move projectUri (Some (element item)) onto) as [[]|e]; cbn.
    + destruct (IWorkspaceService.getProjectsInWorkspace _workspaceService
                  None true); cbn; rewrite <- ?app_assoc; reflexivity.
    + rewrite <- ?app_assoc. reflexivity.
  - intros Hothers.
    apply (proj1 (proj2 (proj2 (handleDrop_refusal_effects onto _ r)))
             (map element (item :: others))).
    + rewrite handleDrag_lookup, decide_True by reflexivity. reflexivity.
    + destruct others; [congruence|]. cbn. lia.
Qed.

End WorkspaceEffects.



(** C6, at the input where the code departs from it.  The first project's
    provider rejects with [undefined]; the [catch] handler throws while
    reading [e.message], so [getChildren] on the root throws that
    [TypeError] instead of returning: the provider of the second project
    is never looked up, although that project has two children to
    contribute. *)
Lemma root_children_stop_at_undefined :
  WorkspaceTreeDataProvider.getChildren Sample.extname Sample.constants
    Sample.faulty None Sample.start
  = (Throws (WorkspaceTreeDataProvider.undefinedPropertyError "message"),
     {| Task.trace :=
          [LoggerLog "Calling getProjectsInWorkspace() from getChildren()";
           GetProjectsInWorkspace None false;
           ExecuteCommand "setContext" "isProjectsViewEmpty" false;
           GetProjectProvider Sample.voidProject;
           GetProjectTreeDataProvider Sample.voidProvider Sample.voidProject];
        Task.locals := tt |})
  /\ projectChildren Sample.faulty Sample.sqlProject
     = [Sample.node "tables.sql"; Sample.node "views.sql"].
Proof. split; reflexivity. Qed.

(** ** The further properties on the sample workspace *)

Lemma root_children_effects_witness :
  (Task.trace
    (snd (WorkspaceTreeDataProvider.getChildren Sample.extname Sample.constants
            Sample.service None Sample.start))
  = [LoggerLog "Calling getProjectsInWorkspace() from getChildren()";
     GetProjectsInWorkspace None false;
     ExecuteCommand "setContext" "isProjectsViewEmpty" false;
     GetProjectProvider Sample.sqlProject;
     GetProjectTreeDataProvider Sample.sqlProvider Sample.sqlProject;
     OnDidChangeTreeData Sample.sqlTree;
     GetChildren Sample.sqlTree None;
     GetProjectProvider Sample.strayProject;
     GetProjectProvider Sample.brokenProject;
     GetProjectTreeDataProvider Sample.sqlProvider Sample.brokenProject;
     ConsoleError "cannot read project";
     ShowErrorMessage "some projects failed to load";
     SendMetricsEvent {[ ".sqlproj" := 2; ".txt" := 1 ]} "OpenWorkspaceProjectTypes";
     SendMetricsEvent {[ "handled" := 2; "unhandled" := 1 ]}
       "OpenWorkspaceProjectsHandled";
     ShowErrorMessage "no provider for: /w/b.txt"])
  /\ WorkspaceTreeDataProvider.getChildren Sample.extname Sample.constants
       Sample.faulty None Sample.start
     = (Throws (WorkspaceTreeDataProvider.undefinedPropertyError "message"),
        {| Task.trace :=
             [LoggerLog "Calling getProjectsInWorkspace() from getChildren()";
              GetProjectsInWorkspace None false;
              ExecuteCommand "setContext" "isProjectsViewEmpty" false;
              GetProjectProvider Sample.voidProject;
              GetProjectTreeDataProvider Sample.voidProvider Sample.voidProject];
           Task.locals := tt |}).
Proof.
  split.
  - rewrite (proj1 (root_children_effects Sample.extname Sample.constants
                      Sample.service
                      [Sample.sqlProject; Sample.strayProject; Sample.brokenProject]
                      Sample.start eq_refl) eq_refl).
    vm_compute. reflexivity.
  - rewrite (proj2 (root_children_effects Sample.extname Sample.constants
                      Sample.faulty [Sample.voidProject; Sample.sqlProject]
                      Sample.start eq_refl)
               (WorkspaceTreeDataProvider.undefinedPropertyError "message")
               eq_refl).
    reflexivity.
Defined.

Lemma root_children_type_telemetry_witness :
  exists metrics,
    In (SendMetricsEvent metrics "OpenWorkspaceProjectTypes")
      (Task.trace
         (snd (WorkspaceTreeDataProvider.getChildren Sample.extname
                 Sample.constants Sample.service None Sample.start)))
    /\ metrics !! ".sqlproj" = Some 2.
Proof.
  destruct (root_children_type_telemetry Sample.extname Sample.constants
              Sample.service
              [Sample.sqlProject; Sample.strayProject; Sample.brokenProject]
              Sample.start eq_refl eq_refl) as (metrics & Hin & Hcount).
  exists metrics. split; [exact Hin|]. rewrite Hcount. reflexivity.
Defined.

Lemma root_children_handled_telemetry_witness :
  exists metrics,
    In (SendMetricsEvent metrics "OpenWorkspaceProjectsHandled")
      (Task.trace
         (snd (WorkspaceTreeDataProvider.getChildren Sample.extname
                 Sample.constants Sample.service None Sample.start)))
    /\ metrics !! "unhandled" = Some 1
    /\ metrics !! "handled" = Some 2.
Proof.
  destruct (root_children_handled_telemetry Sample.extname Sample.constants
              Sample.service
              [Sample.sqlProject; Sample.strayProject; Sample.brokenProject]
              Sample.start eq_refl eq_refl) as (metrics & Hin & Hunhandled & Hhandled).
  exists metrics. split; [exact Hin|]. split.
  - rewrite Hunhandled. reflexivity.
  - rewrite Hhandled. reflexivity.
Defined.

Lemma root_children_listing_failure_witness :
  fst (WorkspaceTreeDataProvider.getChildren Sample.extname Sample.constants
         Sample.unreadable None Sample.start)
  = Throws (Thrown "workspace folder is gone").
Proof.
  rewrite (root_children_listing_failure Sample.extname Sample.constants
             Sample.unreadable (Thrown "workspace folder is gone")
             Sample.start eq_refl).
  reflexivity.
Defined.

Lemma root_children_subscriptions_witness :
  length
    (List.filter isSubscription
       (Task.trace
          (snd (WorkspaceTreeDataProvider.getChildren Sample.extname
                  Sample.constants Sample.service None
                  (snd (WorkspaceTreeDataProvider.getChildren Sample.extname
                          Sample.constants Sample.service None Sample.start))))))
  = 2%nat.
Proof.
  rewrite (root_children_subscriptions Sample.extname Sample.constants
             Sample.service
             [Sample.sqlProject; Sample.strayProject; Sample.brokenProject]
             _ eq_refl).
  rewrite (root_children_subscriptions Sample.extname Sample.constants
             Sample.service
             [Sample.sqlProject; Sample.strayProject; Sample.brokenProject]
             Sample.start eq_refl).
  reflexivity.
Defined.

Lemma handleDrop_refusal_effects_witness :
  WorkspaceTreeDataProvider.handleDrop Sample.projectFileUri Sample.constants
    Sample.service (Some (Sample.node "views.sql"))
    (Sample.dragging ["users.sql"; "orders.sql"]) Sample.start
  = (Returns tt,
     {| Task.trace := [ShowErrorMessage "only one file can be moved"];
        Task.locals := tt |}).
Proof.
  apply (proj1 (proj2 (proj2 (handleDrop_refusal_effects Sample.projectFileUri
                                Sample.constants Sample.service
                                (Sample.node "views.sql")
                                (Sample.dragging ["users.sql"; "orders.sql"])
                                Sample.start)))
           ["users.sql"; "orders.sql"]).
  - reflexivity.
  - cbn. lia.
Defined.

Lemma handleDrop_rejections_witness :
  fst (WorkspaceTreeDataProvider.handleDrop Sample.projectFileUri Sample.constants
         Sample.service (Some (Sample.node "views.sql")) (Sample.dragging [])
         Sample.start)
  = Throws (WorkspaceTreeDataProvider.undefinedPropertyError "projectFileUri").
Proof.
  rewrite (proj1 (handleDrop_rejections Sample.projectFileUri Sample.constants
                    Sample.service (Sample.node "views.sql") (Sample.dragging [])
                    Sample.start) eq_refl).
  reflexivity.
Defined.

Lemma handleDrop_refresh_detached_witness :
  WorkspaceTreeDataProvider.handleDrop Sample.projectFileUri Sample.constants
    Sample.unreadable (Some (Sample.node "views.sql"))
    (Sample.dragging ["users.sql"]) Sample.start
  = (Returns tt,
     {| Task.trace :=
          [GetProjectProvider Sample.sqlProject;
           MoveFile Sample.sqlProvider Sample.sqlProject (Some "users.sql")
             (Sample.node "views.sql");
           LoggerLog "Refreshing projects tree";
           GetProjectsInWorkspace None true];
        Task.locals := tt |}).
Proof.
  rewrite (handleDrop_refresh_detached Sample.projectFileUri Sample.constants
             Sample.unreadable (Sample.node "views.sql")
             (Sample.dragging ["users.sql"]) Sample.start
             "users.sql" Sample.sqlProject Sample.sqlProvider
             (fun _ _ _ => Returns tt)).
  - reflexivity.
  - constructor; reflexivity.
  - reflexivity.
Defined.

Lemma drag_then_drop_witness :
  Task.trace
    (snd (WorkspaceTreeDataProvider.handleDrop Sample.projectFileUri
            Sample.constants Sample.service (Some (Sample.node "views.sql"))
            (WorkspaceTreeDataProvider.handleDrag [Sample.node "users.sql"] ∅)
            Sample.start))
  = [GetProjectProvider Sample.sqlProject;
     MoveFile Sample.sqlProvider Sample.sqlProject (Some "users.sql")
       (Sample.node "views.sql");
     LoggerLog "Refreshing projects tree";
     GetProjectsInWorkspace None true; Fire].
Proof.
  rewrite (proj1 (drag_then_drop Sample.projectFileUri Sample.constants
                    Sample.service (Sample.node "users.sql") []
                    (Sample.node "views.sql") ∅ Sample.start)
             Sample.sqlProject Sample.sqlProvider (fun _ _ _ => Returns tt)
             eq_refl eq_refl eq_refl eq_refl).
  reflexivity.
Defined.

(* ===================================================================== *)
(** * Part IX. Further properties of the long text viewer                 *)
(* ===================================================================== *)

Ltac split_all := repeat match goal with |- _ /\ _ => split end.

Lemma setStyle_twice (property value1 value2 : string)
  (e : LongTextViewer.HTMLElement) :
  LongTextViewer.setStyle property value2 (LongTextViewer.setStyle property value1 e)
  = LongTextViewer.setStyle property value2 e.
Proof.
  unfold LongTextViewer.setStyle. cbn. rewrite insert_insert_eq. reflexivity.
Qed.

Lemma setStyle_commute (property1 property2 value1 value2 : string)
  (e : LongTextViewer.HTMLElement) :
  property1 <> property2 ->
  LongTextViewer.setStyle property1 value1 (LongTextViewer.setStyle property2 value2 e)
  = LongTextViewer.setStyle property2 value2
      (LongTextViewer.setStyle property1 value1 e).
Proof.
  intros Hne. unfold LongTextViewer.setStyle. cbn.
  rewrite insert_insert_ne by congruence. reflexivity.
Qed.


(** X13. Hiding and showing never lose the position: [position] commutes
    with [hide] and with [show], so after any of them the wrapper's [top]
    and [left] are still the position's coordinates minus 5 pixels, and a
    later [position] replaces an earlier one. *)
Theorem position_survives_hide_show (p q : LongTextViewer.Position)
  (viewer : LongTextViewer.t) :
  LongTextViewer.hide (LongTextViewer.position p viewer)
  = LongTextViewer.position p (LongTextViewer.hide viewer)
  /\ LongTextViewer.show (LongTextViewer.position p viewer)
     = LongTextViewer.position p (LongTextViewer.show viewer)
  /\ LongTextViewer.style
       (LongTextViewer._wrapper
          (LongTextViewer.show
             (LongTextViewer.hide (LongTextViewer.position p viewer)))) !! "top"
     = Some (LongTextViewer.px (LongTextViewer.top p - 5))
  /\ LongTextViewer.style
       (LongTextViewer._wrapper
          (LongTextViewer.show
             (LongTextViewer.hide (LongTextViewer.position p viewer)))) !! "left"
     = Some (LongTextViewer.px (LongTextViewer.left p - 5))
  /\ LongTextViewer.position q (LongTextViewer.position p viewer)
     = LongTextViewer.position q viewer.
Proof.
  unfold LongTextViewer.show, LongTextViewer.hide, LongTextViewer.position.
  cbn [LongTextViewer._wrapper LongTextViewer._args LongTextViewer._content
    LongTextViewer.contentFocused].
  split; [|split; [|split; [|split]]].
  - rewrite (setStyle_commute "display" "left") by discriminate.
    rewrite (setStyle_commute "display" "top") by discriminate. reflexivity.
  - rewrite (setStyle_commute "display" "left") by discriminate.
    rewrite (setStyle_commute "display" "top") by discriminate. reflexivity.
  - cbn. rewrite !lookup_insert_ne by discriminate. apply lookup_insert_eq.
  - cbn. rewrite !lookup_insert_ne by discriminate. apply lookup_insert_eq.
  - rewrite (setStyle_commute "top" "left") by discriminate.
    rewrite !setStyle_twice. reflexivity.
Qed.

Lemma new_wellFormed (args : LongTextViewer.EditorOptions) :
  wellFormed args (LongTextViewer.new args).
Proof.
  unfold wellFormed, LongTextViewer.new, LongTextViewer.focus,
    LongTextViewer.position.
  cbn. split_all; try reflexivity.
  - rewrite lookup_insert_ne by discriminate. rewrite lookup_insert_eq. eauto.
  - rewrite lookup_insert_eq. eauto.
Qed.

Lemma perform_wellFormed (args : LongTextViewer.EditorOptions)
  (viewer : LongTextViewer.t) (call : LongTextViewer.Call) :
  wellFormed args viewer -> wellFormed args (LongTextViewer.perform viewer call).
Proof.
  intros (Hargs & Hwrapper & Hcontent & Hfocus & Htop & Hleft & Hstyle).
  destruct call as [| | | | | | | |item|p];
    cbn [LongTextViewer.perform LongTextViewer.handleKeyDown LongTextViewer.save
      LongTextViewer.cancel LongTextViewer.destroy].
  - rewrite Hargs. apply new_wellFormed.
  - unfold wellFormed. split_all; assumption.
  - unfold wellFormed. split_all; assumption.
  - unfold wellFormed. split_all; assumption.
  - unfold wellFormed, LongTextViewer.hide. cbn.
    rewrite !lookup_insert_ne by discriminate. split_all; assumption.
  - unfold wellFormed, LongTextViewer.show. cbn.
    rewrite !lookup_insert_ne by discriminate. split_all; assumption.
  - unfold wellFormed. split_all; assumption.
  - unfold wellFormed, LongTextViewer.focus. cbn. split_all; auto.
  - unfold wellFormed, LongTextViewer.loadValue. cbn. split_all; assumption.
  - unfold wellFormed, LongTextViewer.position. cbn.
    split_all; try assumption.
    + rewrite lookup_insert_ne by discriminate. rewrite lookup_insert_eq. eauto.
    + rewrite lookup_insert_eq. eauto.
Qed.

(** X14. A viewer keeps its shape for life.  After any sequence of calls
    on a freshly constructed viewer, its options are the ones it was
    constructed with (so [applyValue] always writes the same column field),
    the wrapper and the content are still the elements created from
    [.longTextViewer-container] and [span], the content is the element
    that was last asked to take the focus, the wrapper has a [top] and a
    [left], and no style property was ever set on the content. *)
Theorem viewer_wellFormed_forever (args : LongTextViewer.EditorOptions)
  (calls : list LongTextViewer.Call) :
  wellFormed args (fold_left LongTextViewer.perform calls (LongTextViewer.new args)).
Proof.
  generalize (new_wellFormed args).
  generalize (LongTextViewer.new args) as viewer.
  induction calls as [|call rest IH]; intros viewer Hwell; [exact Hwell|].
  cbn [fold_left]. apply IH. apply perform_wellFormed. exact Hwell.
Qed.

(** X15. Only [loadValue] and a new [init] assign the content's text:
    any sequence of the other calls (key presses, save, cancel, hide, show,
    destroy, focus, position) leaves the string last assigned to the
    content's [innerText] as it was; after [loadValue] that string is the
    item itself, or the [text] property of a row object. *)
Theorem text_changes_only_by_loading (calls : list LongTextViewer.Call)
  (viewer : LongTextViewer.t) :
  forallb keepsText calls = true ->
  LongTextViewer.assignedText
    (LongTextViewer._content (fold_left LongTextViewer.perform calls viewer))
  = LongTextViewer.assignedText (LongTextViewer._content viewer)
  /\ (forall s,
        LongTextViewer.assignedText
          (LongTextViewer._content
             (fold_left LongTextViewer.perform calls
                (LongTextViewer.loadValue (LongTextViewer.StringItem s) viewer)))
        = s)
  /\ (forall fields s,
        fields !! "text" = Some s ->
        LongTextViewer.assignedText
          (LongTextViewer._content
             (fold_left LongTextViewer.perform calls
                (LongTextViewer.loadValue (LongTextViewer.DataItem fields) viewer)))
        = s).
Proof.
  intros Hkeeps.
  assert (Hkept : forall v,
    LongTextViewer.assignedText
      (LongTextViewer._content (fold_left LongTextViewer.perform calls v))
    = LongTextViewer.assignedText (LongTextViewer._content v)).
  { induction calls as [|call rest IH]; intros v; [reflexivity|].
    cbn [forallb] in Hkeeps. apply andb_true_iff in Hkeeps as [Hcall Hrest].
    cbn [fold_left]. rewrite (IH Hrest).
    destruct call; try discriminate Hcall; reflexivity. }
  split; [apply Hkept|]. split.
  - intros s. rewrite Hkept. reflexivity.
  - intros fields s Htext. rewrite Hkept. cbn. rewrite Htext. reflexivity.
Qed.

Lemma text_changes_only_by_loading_witness :
  LongTextViewer.assignedText
    (LongTextViewer._content
       (fold_left LongTextViewer.perform
          [LongTextViewer.Hide;
           LongTextViewer.SetPosition
             {| LongTextViewer.top := 40; LongTextViewer.left := 12 |};
           LongTextViewer.Show]
          (LongTextViewer.loadValue (LongTextViewer.StringItem "select 1")
             (LongTextViewer.new
                {| LongTextViewer.position_ :=
                     {| LongTextViewer.top := 10; LongTextViewer.left := 10 |};
                   LongTextViewer.columnField := "query" |}))))
  = "select 1".
Proof.
  apply (proj1 (proj2 (text_changes_only_by_loading
                         [LongTextViewer.Hide;
                          LongTextViewer.SetPosition
                            {| LongTextViewer.top := 40; LongTextViewer.left := 12 |};
                          LongTextViewer.Show]
                         _ eq_refl))).
Defined.
